(** * botSlack: a poller that relays board-column arrivals to a webhook

    Shallow embedding of [bot-get-tickets-qa-v2.py].  The script talks to
    three HTTP endpoints and keeps one piece of state, the set [seen_ids].
    The embedding has three layers:

    - the Python values the script handles (decoded JSON) with the dynamic
      operations it applies to them: truthiness, [dict.get], subscripting,
      iteration, [str()] in f-strings, hashing;
    - a state-and-exception monad over the program state (the outside world,
      [seen_ids], and a trace of the effects performed);
    - the functions of the script, one definition per [def], under their
      own names, and the body of the [while True] loop. *)

From Stdlib Require Import ZArith Ascii String DecimalString.
From stdpp Require Import base gmap sets list strings.

Local Open Scope Z_scope.
Local Open Scope string_scope.
Local Open Scope list_scope.
Set Warnings "-register-all,-clear-no-such-hyp".

(** ** Decoded JSON, as Python sees it

    [resp.json()] yields [None], [bool], [int], [str], [list] and [dict]
    values.  Numbers are integers here: fractional JSON numbers are outside
    the model.  A [dict] is kept as the list of its items in insertion
    order; lookup takes the first binding of a key. *)

Inductive json : Type :=
| JNull
| JBool (b : bool)
| JNum (n : Z)
| JStr (s : string)
| JList (l : list json)
| JObj (fields : list (string * json)).

Fixpoint dict_get (k : string) (fields : list (string * json)) : option json :=
  match fields with
  | [] => None
  | (k', v) :: rest => if String.eqb k k' then Some v else dict_get k rest
  end.

(** [bool(x)]: what [if x] and [if not x] test. *)
Definition py_truthy (j : json) : bool :=
  match j with
  | JNull => false
  | JBool b => b
  | JNum n => negb (n =? 0)%Z
  | JStr s => negb (String.eqb s "")
  | JList l => match l with [] => false | _ => true end
  | JObj f => match f with [] => false | _ => true end
  end.

(** *** [str()] and [repr()], as f-strings apply them *)

Definition dquote : ascii := ascii_of_nat 34.
Definition squote : ascii := ascii_of_nat 39.
Definition backslash : ascii := ascii_of_nat 92.

Fixpoint str_contains (c : ascii) (s : string) : bool :=
  match s with
  | EmptyString => false
  | String c' s' => Ascii.eqb c c' || str_contains c s'
  end.

Definition hex_digit (n : nat) : ascii :=
  if (n <? 10)%nat then ascii_of_nat (48 + n) else ascii_of_nat (87 + n).

Definition repr_char (q : ascii) (c : ascii) : string :=
  let n := nat_of_ascii c in
  if Ascii.eqb c backslash || Ascii.eqb c q then String backslash (String c "")
  else if (n =? 9)%nat then String backslash "t"
  else if (n =? 10)%nat then String backslash "n"
  else if (n =? 13)%nat then String backslash "r"
  else if (n <? 32)%nat || (n =? 127)%nat then
    String backslash (String "x" (String (hex_digit (n / 16)) (String (hex_digit (n mod 16)) "")))
  else String c "".

(** [repr(s)] of a [str]: single quotes unless the text has a single quote
    and no double quote.  A string is its UTF-8 bytes here, and bytes above
    127 are kept as they are.  That is what Python does for the printable
    non-ASCII characters only: the others, U+00A0 or U+200B for two, it
    writes as [\xa0] and [\u200b], so on a text with such a character this
    function and [repr] differ.  On ASCII text they agree. *)
Definition py_repr_str (s : string) : string :=
  let q := if str_contains squote s && negb (str_contains dquote s)
           then dquote else squote in
  let fix body (t : string) : string :=
    match t with
    | EmptyString => String q ""
    | String c t' => repr_char q c +:+ body t'
    end in
  String q (body s).

(** [sep.join(parts)] *)
Fixpoint py_join (sep : string) (parts : list string) : string :=
  match parts with
  | [] => ""
  | [p] => p
  | p :: rest => p +:+ sep +:+ py_join sep rest
  end.

Definition py_str_int (n : Z) : string := NilZero.string_of_int (Z.to_int n).

Fixpoint py_repr (j : json) : string :=
  match j with
  | JNull => "None"
  | JBool true => "True"
  | JBool false => "False"
  | JNum n => py_str_int n
  | JStr s => py_repr_str s
  | JList l => "[" +:+ py_join ", " (map py_repr l) +:+ "]"
  | JObj f =>
      "{" +:+ py_join ", "
                (map (fun kv => match kv with
                                | (k, v) => py_repr_str k +:+ ": " +:+ py_repr v
                                end) f) +:+ "}"
  end.

(** [str(x)], the conversion of [{x}] inside an f-string. *)
Definition py_str (j : json) : string :=
  match j with
  | JStr s => s
  | _ => py_repr j
  end.

(** ** Exceptions and results

    Every exception the modelled code can raise is a subclass of
    [Exception], so [except Exception] catches each of them. *)

Record response : Type := mkResponse {
  status_code : Z;
  content : string;            (* resp.content, the raw body *)
  resp_json : option json;     (* resp.json(); None when decoding fails *)
}.

Inductive exn : Type :=
| KeyError (key : string)
| TypeError
| AttributeError
| RuntimeError (msg : string)
| HTTPError (resp : response)    (* raise_for_status: carries the response *)
| JSONDecodeError
| TransportError (what : string). (* raised by requests itself: timeout, ... *)

Inductive result (A : Type) : Type :=
| Ok (a : A)
| Raise (e : exn).
Arguments Ok {A} a.
Arguments Raise {A} e.

(** [d.get(k, default)]: only a [dict] has the method. *)
Definition py_get (d : json) (k : string) (default : json) : result json :=
  match d with
  | JObj f => Ok (match dict_get k f with Some v => v | None => default end)
  | _ => Raise AttributeError
  end.

(** [d[k]] with a [str] key. *)
Definition py_getitem (d : json) (k : string) : result json :=
  match d with
  | JObj f => match dict_get k f with Some v => Ok v | None => Raise (KeyError k) end
  | _ => Raise TypeError
  end.

Fixpoint dict_keys (seen : list string) (f : list (string * json)) : list json :=
  match f with
  | [] => []
  | (k, _) :: rest =>
      if bool_decide (k ∈ seen) then dict_keys seen rest
      else JStr k :: dict_keys (k :: seen) rest
  end.

Fixpoint str_chars (s : string) : list json :=
  match s with
  | EmptyString => []
  | String c s' => JStr (String c "") :: str_chars s'
  end.

(** [iter(x)], as [for v in x] and comprehensions use it. *)
Definition py_iter (j : json) : result (list json) :=
  match j with
  | JList l => Ok l
  | JObj f => Ok (dict_keys [] f)
  | JStr s => Ok (str_chars s)
  | _ => Raise TypeError
  end.

(** [x == s] for a [str] [s]. *)
Definition py_eq_str (j : json) (s : string) : bool :=
  match j with
  | JStr t => String.eqb t s
  | _ => false
  end.

(** *** Hashable values, as members of a [set]

    [True == 1] and [False == 0] with equal hashes, so a [set] keeps one of
    them; [list] and [dict] are unhashable. *)
Inductive pykey : Type :=
| KNone
| KInt (n : Z)
| KStr (s : string).

Definition py_hashable (j : json) : option pykey :=
  match j with
  | JNull => Some KNone
  | JBool b => Some (KInt (if b then 1 else 0))
  | JNum n => Some (KInt n)
  | JStr s => Some (KStr s)
  | JList _ | JObj _ => None
  end.

#[global] Instance pykey_eq_dec : EqDecision pykey.
Proof. solve_decision. Defined.

Definition pykey_to_sum (k : pykey) : unit + (Z + string) :=
  match k with
  | KNone => inl tt
  | KInt n => inr (inl n)
  | KStr s => inr (inr s)
  end.

Definition pykey_of_sum (x : unit + (Z + string)) : pykey :=
  match x with
  | inl _ => KNone
  | inr (inl n) => KInt n
  | inr (inr s) => KStr s
  end.

#[global] Instance pykey_countable : Countable pykey.
Proof.
  apply (inj_countable' pykey_to_sum pykey_of_sum).
  intros []; reflexivity.
Defined.

(** ** The exception monad of pure code *)

Definition rbind {A B : Type} (m : result A) (k : A → result B) : result B :=
  match m with
  | Ok a => k a
  | Raise e => Raise e
  end.

Notation "x <-? m ;; k" := (rbind m (fun x => k))
  (at level 100, m at next level, right associativity).

(** [for x in xs: acc = body(acc, x)], leaving at the first exception. *)
Fixpoint for_acc {A S : Type} (body : S → A → result S) (acc : S) (xs : list A)
  : result S :=
  match xs with
  | [] => Ok acc
  | x :: rest => acc' <-? body acc x ;; for_acc body acc' rest
  end.

(** ** Configuration (the constants at the top of the script) *)

Definition AZURE_ORG : string := "WFRD-RDE-DWC-Software".
Definition AZURE_PROJ : string := "OmniStack".
Definition TEAM_NAME : string := "WASP".
Definition BOARD_NAME : string := "Stories".
Definition COLUMN_NAME : string := "Ready for QA".
Definition POLL_INTERVAL : Z := 120.

(** ** Team area scope: the pure part of [get_team_area_predicate]

    Lines 84 to 105 of the script, applied to the decoded team field
    values [data]. *)

Definition project_fallback : string :=
  "[System.TeamProject] = '" +:+ AZURE_PROJ +:+ "'".

(** One turn of [for v in values], [parts] being the list it appends to. *)
Definition area_parts_step (parts : list string) (v : json) : result (list string) :=
  path <-? py_get v "value" JNull ;;
  include_children <-? py_get v "includeChildren" (JBool false) ;;
  if negb (py_truthy path) then Ok parts
  else if py_truthy include_children
       then Ok (parts ++ ["[System.AreaPath] UNDER '" +:+ py_str path +:+ "'"])
       else Ok (parts ++ ["[System.AreaPath] = '" +:+ py_str path +:+ "'"]).

Definition team_area_predicate_of (data : json) : result string :=
  values <-? py_get data "values" (JList []) ;;
  if negb (py_truthy values) then Ok project_fallback
  else
    vs <-? py_iter values ;;
    parts <-? for_acc area_parts_step [] vs ;;
    match parts with
    | [] => Ok project_fallback
    | _ => Ok ("(" +:+ py_join " OR " parts +:+ ")")
    end.

(** *** The builder as the specification words it

    An entry is one configured area path: an object with a path under
    ["value"] and a flag under ["includeChildren"]. *)

Definition is_object (v : json) : bool :=
  match v with JObj _ => true | _ => false end.

Definition entry_field (k : string) (v : json) : option json :=
  match v with JObj f => dict_get k f | _ => None end.

(** The entry has a usable path: one that is there and not empty. *)
Definition usable_path (v : json) : bool :=
  match entry_field "value" v with
  | Some p => py_truthy p
  | None => false
  end.

(** includeChildren is true. *)
Definition includes_children (v : json) : bool :=
  match entry_field "includeChildren" v with
  | Some (JBool true) => true
  | _ => false
  end.

(** The flag has the type the service gives it: a boolean, or it is absent. *)
Definition flag_is_boolean (v : json) : bool :=
  match entry_field "includeChildren" v with
  | Some (JBool _) | None => true
  | Some _ => false
  end.

Definition spec_clause (v : json) : string :=
  let path := default JNull (entry_field "value" v) in
  if includes_children v
  then "[System.AreaPath] UNDER '" +:+ py_str path +:+ "'"
  else "[System.AreaPath] = '" +:+ py_str path +:+ "'".

Definition spec_predicate (vs : list json) : string :=
  "(" +:+ py_join " OR " (map spec_clause (List.filter usable_path vs)) +:+ ")".


(** ** Effects: the outside world, [seen_ids], and what was done

    [requests.request] is the one door to the network.  What it answers is
    not the script's to decide, so the world is a parameter: a state and a
    function giving, for a call, either a response or the exception that
    [requests] raises, and the next state. *)

Record http_call : Type := mkCall {
  call_method : string;
  call_url : string;
  call_auth : option (string * string);
  call_params : option (list (string * string));
  call_json : option json;
  call_timeout : option Z;
}.

Inductive http_outcome : Type :=
| Responded (r : response)
| Failed (e : exn).

(** What [print] writes.  [str(e)] of an exception is the interpreter's;
    the two lines that embed one keep the exception itself. *)
Inductive log_line : Type :=
| LogText (s : string)
| LogError (e : exn)      (* f"[error] {e}" *)
| LogWarn (e : exn).      (* f"[warn] Slack post failed: {e}" *)

(** The steps a run leaves behind, oldest first. *)
Inductive event : Type :=
| EvHttp (c : http_call)                (* requests.request / requests.post *)
| EvPrint (line : log_line)             (* print *)
| EvSleep (seconds : Z)                 (* time.sleep *)
| EvSeenAdd (k : pykey)                 (* seen_ids.add(wid) *)
| EvQuery                               (* query_items_in_board_column is entered *)
| EvFetch (wid : json)                  (* get_work_item is entered *)
| EvNotify (wid : json) (text : string). (* the loop hands [wid] to post_to_slack *)

Section Program.

Variable World : Type.
Variable requests_request : http_call → World → http_outcome * World.

(** The two secrets read from the environment when the module loads. *)
Variable PAT : string.
Variable SLACK_WEBHOOK : string.

Record state : Type := mkState {
  world : World;
  seen_ids : gset pykey;
  trace : list event;
}.

(** A computation changes the state and returns or raises; what it did to
    the state before raising stays done. *)
Definition M (A : Type) : Type := state → result A * state.

Definition ret {A : Type} (a : A) : M A := λ st, (Ok a, st).

Definition raise {A : Type} (e : exn) : M A := λ st, (Raise e, st).

Definition bind {A B : Type} (m : M A) (k : A → M B) : M B :=
  λ st, match m st with
        | (Ok a, st') => k a st'
        | (Raise e, st') => (Raise e, st')
        end.

Definition lift {A : Type} (r : result A) : M A := λ st, (r, st).

Notation "x <- m ;; k" := (bind m (fun x => k))
  (at level 100, m at next level, right associativity).
Notation "m ;; k" := (bind m (fun _ => k))
  (at level 100, right associativity).

(** [try: body  except Exception as e: handler(e)] *)
Definition try_except {A : Type} (body : M A) (handler : exn → M A) : M A :=
  λ st, match body st with
        | (Ok a, st') => (Ok a, st')
        | (Raise e, st') => handler e st'
        end.

Definition emit (ev : event) : M unit :=
  λ st, (Ok tt, mkState (world st) (seen_ids st) (trace st ++ [ev])).

Definition print (line : log_line) : M unit := emit (EvPrint line).

Definition sleep (seconds : Z) : M unit := emit (EvSleep seconds).

(** [for x in xs: body(x)] *)
Fixpoint for_each {A : Type} (body : A → M unit) (xs : list A) : M unit :=
  match xs with
  | [] => ret tt
  | x :: rest => body x ;; for_each body rest
  end.

Definition http (c : http_call) : M response :=
  λ st, let (out, w) := requests_request c (world st) in
        let st' := mkState w (seen_ids st) (trace st ++ [EvHttp c]) in
        match out with
        | Responded r => (Ok r, st')
        | Failed e => (Raise e, st')
        end.

(** [wid not in seen_ids]: hashes [wid] first. *)
Definition seen_lacks (wid : json) : M bool :=
  λ st, match py_hashable wid with
        | Some k => (Ok (bool_decide (k ∉ seen_ids st)), st)
        | None => (Raise TypeError, st)
        end.

(** [seen_ids.add(wid)] *)
Definition seen_add (wid : json) : M unit :=
  λ st, match py_hashable wid with
        | Some k => (Ok tt, mkState (world st) ({[k]} ∪ seen_ids st)
                                    (trace st ++ [EvSeenAdd k]))
        | None => (Raise TypeError, st)
        end.

(** ** HTTP helpers *)

Fixpoint lstrip_slash (s : string) : string :=
  match s with
  | String c s' => if Ascii.eqb c "/" then lstrip_slash s' else s
  | EmptyString => s
  end.

(** [resp.raise_for_status()]: an [HTTPError] for the 4xx and 5xx codes. *)
Definition raise_for_status (resp : response) : M unit :=
  if (400 <=? status_code resp)%Z && (status_code resp <? 600)%Z
  then raise (HTTPError resp) else ret tt.

Definition response_json (resp : response) : M json :=
  match resp_json resp with
  | Some j => ret j
  | None => raise JSONDecodeError
  end.

Definition _request (method path : string)
    (params : option (list (string * string))) (json_arg : option json)
  : M json :=
  let base := "https://dev.azure.com/" +:+ AZURE_ORG in
  let url := base +:+ "/" +:+ lstrip_slash path in
  resp <- http (mkCall method url (Some ("", PAT)) params json_arg None) ;;
  raise_for_status resp ;;
  if negb (String.eqb (content resp) "") then response_json resp
  else ret (JObj []).

Definition azure_get (path : string) (params : option (list (string * string)))
  : M json :=
  _request "GET" path params None.

Definition azure_post (path : string) (json_arg : option json)
    (params : option (list (string * string))) : M json :=
  _request "POST" path params json_arg.

Definition post_to_slack (text : string) : M unit :=
  try_except
    (http (mkCall "post" SLACK_WEBHOOK None None
             (Some (JObj [("text", JStr text);
                          ("icon_emoji", JStr ":robot_face:")]))
             (Some 10)) ;;
     ret tt)
    (λ e, print (LogWarn e)).

(** ** Board and column lookup, scoped to the team *)

Definition api_version (v : string) : option (list (string * string)) :=
  Some [("api-version", v)].

Definition get_team_boards (project team : string) : M json :=
  data <- azure_get (project +:+ "/" +:+ team +:+ "/_apis/work/boards")
                    (api_version "6.0-preview.1") ;;
  lift (py_get data "value" (JList [])).

(** [next((b for b in xs if b.get("name") == name), None)]: the generator
    stops at the first match and looks no further. *)
Fixpoint first_named (name : string) (xs : list json) : result (option json) :=
  match xs with
  | [] => Ok None
  | b :: rest =>
      n <-? py_get b "name" JNull ;;
      if py_eq_str n name then Ok (Some b) else first_named name rest
  end.

(** [[b.get('name') for b in xs]] *)
Fixpoint names_of (xs : list json) : result (list json) :=
  match xs with
  | [] => Ok []
  | b :: rest =>
      n <-? py_get b "name" JNull ;;
      ns <-? names_of rest ;;
      Ok (n :: ns)
  end.

(** The two resolvers differ in the text of their error only; [not_found]
    builds it from the list of the names on offer. *)
Definition resolve_by_name (name : string) (not_found : json → string)
    (listed : json) : result (json * json) :=
  xs <-? py_iter listed ;;
  found <-? first_named name xs ;;
  match found with
  | Some entry =>
      if py_truthy entry then
        id <-? py_getitem entry "id" ;;
        nm <-? py_getitem entry "name" ;;
        Ok (id, nm)
      else
        ns <-? names_of xs ;;
        Raise (RuntimeError (not_found (JList ns)))
  | None =>
      ns <-? names_of xs ;;
      Raise (RuntimeError (not_found (JList ns)))
  end.

Definition board_not_found (board_name team : string) (names : json) : string :=
  "Board '" +:+ board_name +:+ "' not found for team '" +:+ team +:+ "'. "
  +:+ "Available: " +:+ py_str names.

Definition get_board_id_by_name (project team board_name : string)
  : M (json * json) :=
  boards <- get_team_boards project team ;;
  lift (resolve_by_name board_name (board_not_found board_name team) boards).

Definition get_board_columns (project team : string) (board_id : json) : M json :=
  data <- azure_get (project +:+ "/" +:+ team +:+ "/_apis/work/boards/"
                     +:+ py_str board_id +:+ "/columns")
                    (api_version "6.0-preview.1") ;;
  lift (py_get data "value" (JList [])).

Definition column_not_found (column_name : string) (board_id : json)
    (names : json) : string :=
  "Column '" +:+ column_name +:+ "' not found on board id " +:+ py_str board_id
  +:+ ". " +:+ "Available: " +:+ py_str names.

Definition get_column_id_by_name (project team : string) (board_id : json)
    (column_name : string) : M (json * json) :=
  cols <- get_board_columns project team board_id ;;
  lift (resolve_by_name column_name (column_not_found column_name board_id) cols).

(** ** Team area scope *)

Definition get_team_area_predicate (project team : string) : M string :=
  data <- azure_get (project +:+ "/" +:+ team
                     +:+ "/_apis/work/teamsettings/teamfieldvalues")
                    (api_version "6.0") ;;
  lift (team_area_predicate_of data).

(** ** The query, and the details of one item *)

Definition wiql_query (project column_name team_area_predicate : string) : string :=
  "SELECT [System.Id], [System.Title] "
  +:+ "FROM workitems "
  +:+ "WHERE [System.TeamProject] = '" +:+ project +:+ "' "
  +:+ "AND [System.BoardColumn] = '" +:+ column_name +:+ "' "
  +:+ "AND " +:+ team_area_predicate.

Definition query_items_in_board_column
    (project column_name team_area_predicate : string) : M json :=
  emit EvQuery ;;
  let wiql := JObj [("query", JStr (wiql_query project column_name
                                                team_area_predicate))] in
  res <- azure_post (project +:+ "/_apis/wit/wiql") (Some wiql)
                    (api_version "6.0") ;;
  lift (py_get res "workItems" (JList [])).

Definition get_work_item (project : string) (wid : json) : M json :=
  emit (EvFetch wid) ;;
  azure_get (project +:+ "/_apis/wit/workitems/" +:+ py_str wid)
            (api_version "6.0").

(** ** Main: the body of [while True] *)

Definition ticket_message (url wid title : json) : string :=
  ":excitedstar: *[" +:+ TEAM_NAME +:+ " · " +:+ BOARD_NAME
  +:+ "] Ticket ready for testing:* "
  +:+ "<" +:+ py_str url +:+ "|#" +:+ py_str wid +:+ " – " +:+ py_str title +:+ ">".

(** One turn of [for itm in items]. *)
Definition loop_item (itm : json) : M unit :=
  wid <- lift (py_getitem itm "id") ;;
  unseen <- seen_lacks wid ;;
  if unseen then
    seen_add wid ;;
    details <- get_work_item AZURE_PROJ wid ;;
    fields <- lift (py_getitem details "fields") ;;
    title <- lift (py_get fields "System.Title" JNull) ;;
    links <- lift (py_getitem details "_links") ;;
    html <- lift (py_getitem links "html") ;;
    url <- lift (py_getitem html "href") ;;
    let text := ticket_message url wid title in
    emit (EvNotify wid text) ;;
    post_to_slack text
  else ret tt.

(** What the [try] block of a turn does. *)
Definition poll_try (area_predicate : string) : M unit :=
  items <- query_items_in_board_column AZURE_PROJ COLUMN_NAME area_predicate ;;
  its <- lift (py_iter items) ;;
  for_each loop_item its.

(** One turn of [while True]: the guarded block, then the sleep. *)
Definition poll_cycle (area_predicate : string) : M unit :=
  try_except (poll_try area_predicate) (λ e, print (LogError e)) ;;
  sleep POLL_INTERVAL.

(** The first [n] turns of [while True].  The loop has no exit of its own:
    a turn that raised would take the exception out of the loop, and so out
    of [poll_loop]. *)
Fixpoint poll_loop (area_predicate : string) (n : nat) : M unit :=
  match n with
  | O => ret tt
  | S n' => poll_cycle area_predicate ;; poll_loop area_predicate n'
  end.

(** The script from [if __name__ == "__main__":] on, with [n] turns of the
    loop. *)
Definition main (n : nat) : M unit :=
  board <- get_board_id_by_name AZURE_PROJ TEAM_NAME BOARD_NAME ;;
  let (board_id, resolved_board_name) := board : json * json in
  column <- get_column_id_by_name AZURE_PROJ TEAM_NAME board_id COLUMN_NAME ;;
  let (column_id, resolved_col_name) := column : json * json in
  print (LogText ("Monitoring Org='" +:+ AZURE_ORG +:+ "', Project='"
                  +:+ AZURE_PROJ +:+ "', Team='" +:+ TEAM_NAME +:+ "'")) ;;
  print (LogText ("Board='" +:+ py_str resolved_board_name +:+ "' (id="
                  +:+ py_str board_id +:+ "), Column='"
                  +:+ py_str resolved_col_name +:+ "'")) ;;
  area_predicate <- get_team_area_predicate AZURE_PROJ TEAM_NAME ;;
  print (LogText ("Area predicate: " +:+ area_predicate)) ;;
  poll_loop area_predicate n.

End Program.

Arguments mkState {World} _ _ _.
Arguments world {World} _.
Arguments seen_ids {World} _.
Arguments trace {World} _.

(** ** Reading a trace *)

(** The keys a trace adds to [seen_ids]. *)
Fixpoint added_keys (evs : list event) : gset pykey :=
  match evs with
  | [] => ∅
  | EvSeenAdd k :: rest => {[k]} ∪ added_keys rest
  | _ :: rest => added_keys rest
  end.

(** The identifiers handed to the notifier, in order, as set members. *)
Fixpoint notified_keys (evs : list event) : list pykey :=
  match evs with
  | [] => []
  | EvNotify wid _ :: rest =>
      match py_hashable wid with
      | Some k => k :: notified_keys rest
      | None => notified_keys rest
      end
  | _ :: rest => notified_keys rest
  end.

(** Events that neither touch [seen_ids] nor notify. *)
Definition neutral (ev : event) : Prop :=
  match ev with
  | EvSeenAdd _ | EvNotify _ _ => False
  | _ => True
  end.

(** Events other than the start of a query. *)
Definition not_query (ev : event) : Prop :=
  match ev with
  | EvQuery => False
  | _ => True
  end.

(** A monitor for the dedup discipline.  It follows a trace with the set of
    seen keys and the one key that was just added and may still be notified.
    An add of a key already seen, or a notification for anything but the
    pending key, stops it. *)
Definition monitor : Type := gset pykey * option pykey.

Definition monitor_step (ms : monitor) (ev : event) : option monitor :=
  match ev with
  | EvSeenAdd k =>
      if bool_decide (k ∈ ms.1) then None else Some ({[k]} ∪ ms.1, Some k)
  | EvNotify wid _ =>
      match py_hashable wid, ms.2 with
      | Some k, Some k' => if bool_decide (k = k') then Some (ms.1, None) else None
      | _, _ => None
      end
  | _ => Some ms
  end.

Fixpoint monitor_run (ms : monitor) (evs : list event) : option monitor :=
  match evs with
  | [] => Some ms
  | ev :: rest =>
      match monitor_step ms ev with
      | Some ms' => monitor_run ms' rest
      | None => None
      end
  end.

(** The traces of [n] turns of the loop: each turn opens with its query,
    has no second one, and closes with the sleep. *)
Fixpoint turns (blocks : list (list event)) : list event :=
  match blocks with
  | [] => []
  | b :: rest => (EvQuery :: b ++ [EvSleep POLL_INTERVAL]) ++ turns rest
  end.

(** The key of the identifier of a query item, when it has one. *)
Definition item_key (itm : json) : option pykey :=
  match py_getitem itm "id" with
  | Ok wid => py_hashable wid
  | Raise _ => None
  end.

(** ** A scripted world, for running the script on given answers

    The world is the list of the answers still to come; a call takes the
    first.  A call beyond the script fails as a dropped connection would. *)
Definition script : Type := list http_outcome.

Definition scripted (c : http_call) (w : script) : http_outcome * script :=
  match w with
  | o :: rest => (o, rest)
  | [] => (Failed (TransportError "connection aborted"), [])
  end.

Definition answer (status : Z) (body : string) (decoded : option json)
  : http_outcome :=
  Responded (mkResponse status body decoded).

(** A 200 answer carrying [j]; the raw body is not looked at beyond being
    there. *)
Definition answer_json (j : json) : http_outcome :=
  answer 200 (py_repr j) (Some j).

Arguments ret {World A} _ _.
Arguments bind {World A B} _ _ _.
Arguments lift {World A} _ _.
Arguments try_except {World A} _ _ _.
Arguments emit {World} _ _.
Arguments print {World} _ _.
Arguments sleep {World} _ _.
Arguments for_each {World A} _ _ _.
Arguments http {World} _ _ _.
Arguments seen_lacks {World} _ _.
Arguments seen_add {World} _ _.
Arguments _request {World} _ _ _ _ _ _ _.
Arguments azure_get {World} _ _ _ _ _.
Arguments azure_post {World} _ _ _ _ _ _.
Arguments post_to_slack {World} _ _ _ _.
Arguments get_team_boards {World} _ _ _ _ _.
Arguments get_board_id_by_name {World} _ _ _ _ _ _.
Arguments get_board_columns {World} _ _ _ _ _ _.
Arguments get_column_id_by_name {World} _ _ _ _ _ _ _.
Arguments get_team_area_predicate {World} _ _ _ _ _.
Arguments query_items_in_board_column {World} _ _ _ _ _ _.
Arguments get_work_item {World} _ _ _ _ _.
Arguments loop_item {World} _ _ _ _ _.
Arguments poll_try {World} _ _ _ _ _.
Arguments poll_cycle {World} _ _ _ _ _.
Arguments poll_loop {World} _ _ _ _ _ _.
Arguments main {World} _ _ _ _ _.

(** The state the process starts in. *)
Definition initial {World : Type} (w : World) : state World := mkState w ∅ [].

(** The state once [c] has been sent and the world has moved to [w]. *)
Definition after_call {World : Type} (st : state World) (c : http_call)
    (w : World) : state World :=
  mkState w (seen_ids st) (trace st ++ [EvHttp c]).

(** The call [_request] sends. *)
Definition request_call (PAT method path : string)
    (params : option (list (string * string))) (json_arg : option json)
  : http_call :=
  mkCall method ("https://dev.azure.com/" +:+ AZURE_ORG +:+ "/" +:+ lstrip_slash path)
         (Some ("", PAT)) params json_arg None.

(** The call [post_to_slack] sends. *)
Definition slack_call (SLACK_WEBHOOK text : string) : http_call :=
  mkCall "post" SLACK_WEBHOOK None None
         (Some (JObj [("text", JStr text); ("icon_emoji", JStr ":robot_face:")]))
         (Some 10).

(** [resp.ok] of requests: the status is no 4xx and no 5xx, which is when
    [raise_for_status] lets the response through.  This is the test the
    script runs, and it is wider than a 2xx status: a 3xx answer passes it. *)
Definition response_ok (resp : response) : bool :=
  negb ((400 <=? status_code resp)%Z && (status_code resp <? 600)%Z).

(** The name an entry of a board or column list shows, [b.get('name')]. *)
Definition entry_name (v : json) : json :=
  default JNull (entry_field "name" v).

(** An entry the lookup of [name] passes over. *)
Definition other_name (name : string) (v : json) : bool :=
  is_object v && negb (py_eq_str (entry_name v) name).

(** ** What a computation may leave in the trace *)

(** The events of plain input and output. *)
Definition plain (ev : event) : Prop :=
  match ev with
  | EvHttp _ | EvPrint _ | EvSleep _ | EvFetch _ => True
  | _ => False
  end.

(** [m] only appends to the trace, appends only events in [P], and changes
    [seen_ids] by exactly the adds it logs. *)
Definition tracked {World A : Type} (P : event → Prop) (m : M World A) : Prop :=
  ∀ st r st', m st = (r, st') →
    ∃ evs, trace st' = (trace st ++ evs)
           ∧ Forall P evs
           ∧ seen_ids st' = added_keys evs ∪ seen_ids st.

(** [m] only appends to the trace, and the monitor follows what it appends
    from the seen set before to the seen set after, whatever key was
    pending. *)
Definition accepted {World A : Type} (m : M World A) : Prop :=
  ∀ st r st', m st = (r, st') →
    ∃ evs, trace st' = (trace st ++ evs)
           ∧ ∀ p, ∃ p', monitor_run (seen_ids st, p) evs = Some (seen_ids st', p').

(** [m] leaves [seen_ids] alone and leaves plain events, with at most one
    notification among them, which is for [wid]; once it has notified, it
    returns. *)
Definition notifies_at_most {World A : Type} (wid : json) (m : M World A) : Prop :=
  ∀ st r st', m st = (r, st') →
    seen_ids st' = seen_ids st
    ∧ ∃ evs1 tail,
        trace st' = trace st ++ evs1 ++ tail
        ∧ Forall plain evs1
        ∧ (tail = [] ∨ ∃ text evs2 a, tail = EvNotify wid text :: evs2
                                       ∧ Forall plain evs2
                                       ∧ r = Ok a).

(** The pending key is a seen key. *)
Definition pending_seen (ms : monitor) : Prop :=
  ∀ k, ms.2 = Some k → k ∈ ms.1.

(** ** The calls of a turn, and answers to script them with *)

(** The call of [query_items_in_board_column] in the main loop. *)
Definition wiql_call (PAT area_predicate : string) : http_call :=
  request_call PAT "POST" (AZURE_PROJ +:+ "/_apis/wit/wiql") (api_version "6.0")
    (Some (JObj [("query", JStr (wiql_query AZURE_PROJ COLUMN_NAME
                                            area_predicate))])).

(** The call of [get_work_item] in the main loop. *)
Definition fetch_call (PAT : string) (wid : json) : http_call :=
  request_call PAT "GET" (AZURE_PROJ +:+ "/_apis/wit/workitems/" +:+ py_str wid)
    (api_version "6.0") None.

(** A query answer listing the items with the given ids. *)
Definition items_answer (ids : list Z) : http_outcome :=
  answer_json (JObj [("workItems", JList (map (λ n, JObj [("id", JNum n)]) ids))]).

Definition item_details (n : Z) (title url : string) : json :=
  JObj [("id", JNum n);
        ("fields", JObj [("System.Title", JStr title)]);
        ("_links", JObj [("html", JObj [("href", JStr url)])])].

(** ** A scenario: items 101 and 102 in the column, 101 seen already *)

Definition demo_hook : string := "https://hooks.example/services/T000".

Definition demo_area : string := "([System.AreaPath] UNDER 'OmniStack\WASP')".

Definition demo_url : string := "https://dev.azure.com/o/p/_workitems/edit/102".

Definition demo_text : string :=
  ticket_message (JStr demo_url) (JNum 102) (JStr "Fix login").

(** The answers to the query, the fetch of 102 and the webhook post of one
    turn, then to the query of the next turn. *)
Definition demo_world : script :=
  [items_answer [101; 102];
   answer_json (item_details 102 "Fix login" demo_url);
   answer 200 "ok" None;
   items_answer [101; 102]].

Definition demo_state : state script := mkState demo_world {[KInt 101]} [].

(** The same with a webhook that times out. *)
Definition demo_timeout : exn := TransportError "Read timed out. (read timeout=10)".

Definition demo_state_timeout : state script :=
  mkState [items_answer [101; 102];
           answer_json (item_details 102 "Fix login" demo_url);
           Failed demo_timeout;
           items_answer [101; 102]]
          {[KInt 101]} [].

(** Items 101, 102, 103, none seen; the fetch of 102 is refused.  The next
    turn finds the three again. *)
Definition demo_refused : response := mkResponse 503 "Service Unavailable" None.

Definition demo_state_refused : state script :=
  mkState [items_answer [101; 102; 103];
           answer_json (item_details 101 "Add export" demo_url);
           answer 200 "ok" None;
           Responded demo_refused;
           items_answer [101; 102; 103];
           answer_json (item_details 103 "Fix logout" demo_url);
           answer 200 "ok" None]
          ∅ [].

(** ** Measures on paths and traces *)

(** [n] slashes. *)
Fixpoint slashes (n : nat) : string :=
  match n with
  | O => ""
  | S n' => String "/" (slashes n')
  end.

(** The network calls in a trace. *)
Fixpoint http_count (evs : list event) : nat :=
  match evs with
  | [] => 0
  | EvHttp _ :: rest => S (http_count rest)
  | _ :: rest => http_count rest
  end.

(** The keys a trace adds to [seen_ids], in order. *)
Fixpoint added_list (evs : list event) : list pykey :=
  match evs with
  | [] => []
  | EvSeenAdd k :: rest => k :: added_list rest
  | _ :: rest => added_list rest
  end.

(** The clause of an entry when the flag is judged as [if include_children]
    judges it: by its truth value, absent counting as false. *)
Definition clause_by_truthiness (v : json) : string :=
  let path := default JNull (entry_field "value" v) in
  if py_truthy (default (JBool false) (entry_field "includeChildren" v))
  then "[System.AreaPath] UNDER '" +:+ py_str path +:+ "'"
  else "[System.AreaPath] = '" +:+ py_str path +:+ "'".

(** ** The calls of the startup, and what [_request] makes of a response *)

(** Lines 26 to 29 of the script, applied to the response received. *)
Definition request_result (resp : response) : result json :=
  if response_ok resp then
    if String.eqb (content resp) "" then Ok (JObj [])
    else match resp_json resp with
         | Some j => Ok j
         | None => Raise JSONDecodeError
         end
  else Raise (HTTPError resp).

(** The call of [get_team_boards]. *)
Definition boards_call (PAT project team : string) : http_call :=
  request_call PAT "GET" (project +:+ "/" +:+ team +:+ "/_apis/work/boards")
    (api_version "6.0-preview.1") None.

(** The call of [get_board_columns]. *)
Definition columns_call (PAT project team : string) (board_id : json) : http_call :=
  request_call PAT "GET"
    (project +:+ "/" +:+ team +:+ "/_apis/work/boards/" +:+ py_str board_id
     +:+ "/columns")
    (api_version "6.0-preview.1") None.

(** The call of [get_team_area_predicate]. *)
Definition team_settings_call (PAT project team : string) : http_call :=
  request_call PAT "GET"
    (project +:+ "/" +:+ team +:+ "/_apis/work/teamsettings/teamfieldvalues")
    (api_version "6.0") None.

(** [data.get("value", [])] of a decoded answer. *)
Definition listed_value (data : json) : result json :=
  py_get data "value" (JList []).

(** A trace with [q] queries in it keeps to the budget of calls: the [q]
    calls of the queries, and at most two more for each key added. *)
Definition within_budget (q : nat) (evs : list event) : Prop :=
  (q ≤ http_count evs)%nat
  ∧ (http_count evs ≤ q + 2 * length (added_list evs))%nat.

(** Success as the specification words it: a 2xx status. *)
Definition status_2xx (resp : response) : bool :=
  (200 <=? status_code resp)%Z && (status_code resp <? 300)%Z.

(** * Properties *)

(** ** The scope predicate builder *)

Lemma rbind_ok {A B : Type} (m : result A) (k : A → result B) (a : A) :
  m = Ok a → rbind m k = k a.
Proof. intros ->. reflexivity. Qed.

Lemma usable_path_object (f : list (string * json)) :
  usable_path (JObj f) = py_truthy (default JNull (dict_get "value" f)).
Proof. unfold usable_path. simpl. destruct (dict_get "value" f); reflexivity. Qed.

(** What one turn of the loop over the entries appends, for an entry of the
    documented shape. *)
Lemma area_parts_step_spec (parts : list string) (v : json) :
  is_object v = true →
  flag_is_boolean v = true →
  area_parts_step parts v =
    Ok (parts ++ (if usable_path v then [spec_clause v] else [])).
Proof.
  destruct v as [| | | | |f]; try discriminate. intros _ Hflag.
  unfold area_parts_step, spec_clause, includes_children, flag_is_boolean in *.
  rewrite usable_path_object. simpl in *.
  destruct (dict_get "value" f) as [p|]; simpl.
  - destruct (py_truthy p); simpl; [|by rewrite app_nil_r].
    destruct (dict_get "includeChildren" f) as [[| [|] | | | |]|];
      simpl; try discriminate; reflexivity.
  - by rewrite app_nil_r.
Qed.

Lemma area_parts_loop (vs : list json) : ∀ parts : list string,
  forallb is_object vs = true →
  forallb flag_is_boolean vs = true →
  for_acc area_parts_step parts vs =
    Ok (parts ++ map spec_clause (List.filter usable_path vs)).
Proof.
  induction vs as [|v vs IH]; intros parts Hobj Hflag; simpl.
  - by rewrite app_nil_r.
  - apply andb_prop in Hobj as [Hv Hobj]. apply andb_prop in Hflag as [Fv Hflag].
    rewrite (area_parts_step_spec parts v Hv Fv). simpl.
    rewrite (IH _ Hobj Hflag). destruct (usable_path v); simpl.
    + by rewrite <- app_assoc.
    + by rewrite app_nil_r.
Qed.

(** Entries without a usable path leave [parts] as it was, whatever their
    flag. *)
Lemma area_parts_loop_unusable (vs : list json) : ∀ parts : list string,
  forallb is_object vs = true →
  existsb usable_path vs = false →
  for_acc area_parts_step parts vs = Ok parts.
Proof.
  induction vs as [|v vs IH]; intros parts Hobj Hno; simpl; [done|].
  apply andb_prop in Hobj as [Hv Hobj].
  apply orb_false_elim in Hno as [Uv Hno].
  destruct v as [| | | | |f]; try discriminate.
  rewrite usable_path_object in Uv.
  unfold area_parts_step. simpl.
  destruct (dict_get "value" f) as [p|]; simpl in *; rewrite ?Uv; simpl;
    by apply IH.
Qed.

(** The loop over objects never raises, and never shrinks [parts]. *)
Lemma area_parts_step_total (parts : list string) (v : json) :
  is_object v = true →
  ∃ more, area_parts_step parts v = Ok (parts ++ more).
Proof.
  destruct v as [| | | | |f]; try discriminate. intros _.
  unfold area_parts_step. simpl.
  destruct (dict_get "value" f) as [p|]; simpl.
  - destruct (py_truthy p); simpl; [|exists []; by rewrite app_nil_r].
    destruct (dict_get "includeChildren" f) as [b|]; simpl.
    + destruct (py_truthy b); eexists; reflexivity.
    + eexists; reflexivity.
  - exists []. by rewrite app_nil_r.
Qed.

Lemma area_parts_loop_total (vs : list json) : ∀ parts : list string,
  forallb is_object vs = true →
  ∃ more, for_acc area_parts_step parts vs = Ok (parts ++ more).
Proof.
  induction vs as [|v vs IH]; intros parts Hobj; simpl.
  - exists []. by rewrite app_nil_r.
  - apply andb_prop in Hobj as [Hv Hobj].
    destruct (area_parts_step_total parts v Hv) as [m1 ->]. simpl.
    destruct (IH (parts ++ m1) Hobj) as [m2 ->].
    exists (m1 ++ m2). by rewrite app_assoc.
Qed.

Lemma filter_usable_nonempty (vs : list json) :
  existsb usable_path vs = true → List.filter usable_path vs ≠ [].
Proof.
  induction vs as [|v vs IH]; simpl; [discriminate|].
  destruct (usable_path v); simpl; [discriminate | exact IH].
Qed.

(** C2.  For team settings whose values hold at least one entry with a
    usable path, the builder returns the disjunction the specification
    describes: one clause per entry with a usable path, in order, [UNDER]
    when includeChildren is true and [=] when it is false, joined by
    [" OR "] inside one pair of parentheses.  The entry
    [{value: "Proj\Team", includeChildren: true}] alone gives
    [([System.AreaPath] UNDER 'Proj\Team')]. *)
Theorem scope_predicate_clauses :
  (∀ (fields : list (string * json)) (vs : list json),
     dict_get "values" fields = Some (JList vs) →
     forallb is_object vs = true →
     forallb flag_is_boolean vs = true →
     existsb usable_path vs = true →
     team_area_predicate_of (JObj fields) = Ok (spec_predicate vs))
  ∧ team_area_predicate_of
      (JObj [("values",
              JList [JObj [("value", JStr "Proj\Team");
                           ("includeChildren", JBool true)]])])
    = Ok "([System.AreaPath] UNDER 'Proj\Team')".
Proof.
  split; [|reflexivity].
  intros fields vs Hvalues Hobj Hflag Hsome.
  unfold team_area_predicate_of, spec_predicate. simpl. rewrite Hvalues.
  destruct vs as [|v vs]; [discriminate|].
  cbn [rbind py_truthy negb py_iter].
  rewrite (area_parts_loop (v :: vs) [] Hobj Hflag).
  cbn [rbind app].
  pose proof (filter_usable_nonempty _ Hsome) as Hne.
  destruct (List.filter usable_path (v :: vs)); [done|reflexivity].
Qed.

Lemma scope_predicate_clauses_witness :
  let vs := [JObj [("value", JStr "OmniStack\WASP"); ("includeChildren", JBool true)];
             JObj [("value", JStr "")];
             JObj [("value", JStr "OmniStack\Ops"); ("includeChildren", JBool false)]] in
  let fields := [("field", JObj [("referenceName", JStr "System.AreaPath")]);
                 ("values", JList vs)] in
  team_area_predicate_of (JObj fields) = Ok (spec_predicate vs)
  ∧ spec_predicate vs =
    "([System.AreaPath] UNDER 'OmniStack\WASP' OR [System.AreaPath] = 'OmniStack\Ops')".
Proof.
  intros vs fields. split; [|reflexivity].
  apply (proj1 scope_predicate_clauses fields vs); reflexivity.
Defined.

(** C9.  An entry with a usable path and no includeChildren field gets the
    exact-match clause, as if the flag were false.  An [UNDER] clause comes
    only from an entry whose includeChildren is there and holds: true, when
    it is a boolean. *)
Theorem absent_flag_is_exact_match :
  (∀ (parts : list string) (f : list (string * json)) (path : json),
     dict_get "value" f = Some path →
     py_truthy path = true →
     dict_get "includeChildren" f = None →
     area_parts_step parts (JObj f)
     = Ok (parts ++ ["[System.AreaPath] = '" +:+ py_str path +:+ "'"]))
  ∧ (∀ (parts : list string) (f : list (string * json)) (c s : string),
       area_parts_step parts (JObj f) = Ok (parts ++ [c]) →
       c = "[System.AreaPath] UNDER '" +:+ s →
       ∃ flag, dict_get "includeChildren" f = Some flag
               ∧ py_truthy flag = true
               ∧ ∀ b, flag = JBool b → b = true)
  ∧ team_area_predicate_of
      (JObj [("values", JList [JObj [("value", JStr "Proj\Team")]])])
    = Ok "([System.AreaPath] = 'Proj\Team')".
Proof.
  split; [|split; [|reflexivity]].
  - intros parts f path Hpath Htruthy Hflag.
    unfold area_parts_step. simpl. rewrite Hpath, Hflag. simpl.
    by rewrite Htruthy.
  - intros parts f c s Hstep ->.
    unfold area_parts_step in Hstep. simpl in Hstep.
    destruct (py_truthy (match dict_get "value" f with
                         | Some v => v | None => JNull end)); simpl in Hstep.
    + destruct (dict_get "includeChildren" f) as [flag|]; simpl in Hstep.
      * destruct (py_truthy flag) eqn:Hflag.
        -- exists flag. split; [done|]. split; [done|].
           intros b ->. exact Hflag.
        -- injection Hstep as Hstep. apply app_inv_head in Hstep.
           discriminate Hstep.
      * injection Hstep as Hstep. apply app_inv_head in Hstep.
        discriminate Hstep.
    + injection Hstep as Hstep.
      apply (f_equal length) in Hstep. rewrite length_app in Hstep.
      simpl in Hstep. lia.
Qed.

Lemma absent_flag_is_exact_match_witness :
  area_parts_step ["[System.AreaPath] UNDER 'A'"] (JObj [("value", JStr "B")])
  = Ok ["[System.AreaPath] UNDER 'A'"; "[System.AreaPath] = 'B'"]
  ∧ ∃ flag, dict_get "includeChildren"
              [("value", JStr "B"); ("includeChildren", JBool true)] = Some flag
            ∧ py_truthy flag = true
            ∧ ∀ b, flag = JBool b → b = true.
Proof.
  destruct absent_flag_is_exact_match as (Habsent & Hunder & _).
  split.
  - apply (Habsent ["[System.AreaPath] UNDER 'A'"] [("value", JStr "B")] (JStr "B"));
      reflexivity.
  - apply (Hunder [] [("value", JStr "B"); ("includeChildren", JBool true)]
             "[System.AreaPath] UNDER 'B'" "B'"); reflexivity.
Defined.

(** ** The transport client *)

Section Transport.

Context {World : Type}.
Variable rr : http_call → World → http_outcome * World.
Variable PAT : string.

(** [_request] sends one call, and what it does next depends on the answer
    alone. *)
Lemma request_unfold (method path : string)
    (params : option (list (string * string))) (json_arg : option json)
    (st : state World) :
  _request rr PAT method path params json_arg st =
  let c := request_call PAT method path params json_arg in
  match rr c (world st) with
  | (Responded resp, w) =>
      if response_ok resp then
        if String.eqb (content resp) "" then (Ok (JObj []), after_call st c w)
        else match resp_json resp with
             | Some j => (Ok j, after_call st c w)
             | None => (Raise JSONDecodeError, after_call st c w)
             end
      else (Raise (HTTPError resp), after_call st c w)
  | (Failed e, w) => (Raise e, after_call st c w)
  end.
Proof.
  unfold _request, request_call, bind, http, raise_for_status, response_ok,
    response_json, after_call. simpl.
  destruct (rr _ (world st)) as [[resp|e] w]; [|reflexivity].
  destruct ((400 <=? status_code resp)%Z && (status_code resp <? 600)%Z);
    simpl; [reflexivity|].
  destruct (String.eqb (content resp) ""); simpl; [reflexivity|].
  destruct (resp_json resp); reflexivity.
Qed.

Lemma response_ok_false (resp : response) :
  response_ok resp = false ↔ (400 ≤ status_code resp < 600)%Z.
Proof.
  unfold response_ok.
  destruct (Z.leb_spec 400 (status_code resp)),
           (Z.ltb_spec (status_code resp) 600); simpl; split;
    try done; lia.
Qed.

Lemma response_ok_true (resp : response) :
  response_ok resp = true ↔ ¬ (400 ≤ status_code resp < 600)%Z.
Proof.
  rewrite <- response_ok_false. by destruct (response_ok resp).
Qed.

(** C8, as the code has it.  When the service answers: a 4xx or 5xx status
    makes the call fail with the error that carries the response, status and
    body.  Any other status, a 3xx one included, lets the answer through:
    with no body the call returns the empty dict, with a body that is JSON
    it returns the body decoded, and with a body that is not JSON it fails
    with the decoding error. *)
Theorem request_outcomes (method path : string)
    (params : option (list (string * string))) (json_arg : option json)
    (st : state World) (resp : response) (w : World) :
  let c := request_call PAT method path params json_arg in
  rr c (world st) = (Responded resp, w) →
  ((400 ≤ status_code resp < 600)%Z →
     _request rr PAT method path params json_arg st
     = (Raise (HTTPError resp), after_call st c w))
  ∧ (¬ (400 ≤ status_code resp < 600)%Z → content resp = "" →
       _request rr PAT method path params json_arg st
       = (Ok (JObj []), after_call st c w))
  ∧ (¬ (400 ≤ status_code resp < 600)%Z → content resp ≠ "" →
       ∀ j, resp_json resp = Some j →
            _request rr PAT method path params json_arg st
            = (Ok j, after_call st c w))
  ∧ (¬ (400 ≤ status_code resp < 600)%Z → content resp ≠ "" →
       resp_json resp = None →
       _request rr PAT method path params json_arg st
       = (Raise JSONDecodeError, after_call st c w)).
Proof.
  intros c Hanswer. subst c. rewrite request_unfold. cbv zeta. rewrite Hanswer.
  split; [|split; [|split]].
  - intros H. apply response_ok_false in H. by rewrite H.
  - intros H ->. apply response_ok_true in H. by rewrite H.
  - intros H Hbody j ->. apply response_ok_true in H. rewrite H.
    destruct (String.eqb_spec (content resp) ""); [done|reflexivity].
  - intros H Hbody ->. apply response_ok_true in H. rewrite H.
    destruct (String.eqb_spec (content resp) ""); [done|reflexivity].
Qed.

End Transport.

Lemma request_outcomes_witness :
  let path := "/OmniStack/_apis/wit/workitems/7" in
  let params := Some [("api-version", "6.0")] in
  let c := request_call "pat" "GET" path params None in
  let denied := mkResponse 401 "Access denied" None in
  let item := JObj [("id", JNum 7)] in
  let found := mkResponse 200 (py_repr item) (Some item) in
  _request scripted "pat" "GET" path params None (initial [Responded denied])
  = (Raise (HTTPError denied), after_call (initial [Responded denied]) c [])
  ∧ _request scripted "pat" "GET" path params None (initial [answer 204 "" None])
    = (Ok (JObj []), after_call (initial [answer 204 "" None]) c [])
  ∧ _request scripted "pat" "GET" path params None (initial [Responded found])
    = (Ok item, after_call (initial [Responded found]) c []).
Proof.
  intros path params c denied item found. split; [|split].
  - pose proof (request_outcomes scripted "pat" "GET" path params None
                  (initial [Responded denied]) denied [] eq_refl) as (H & _).
    apply H. simpl. lia.
  - pose proof (request_outcomes scripted "pat" "GET" path params None
                  (initial [answer 204 "" None]) (mkResponse 204 "" None) []
                  eq_refl) as (_ & H & _).
    apply H; [simpl; lia | reflexivity].
  - pose proof (request_outcomes scripted "pat" "GET" path params None
                  (initial [Responded found]) found [] eq_refl) as (_ & _ & H & _).
    apply H; [simpl; lia | discriminate | reflexivity].
Defined.

(** The three cases of C8 as the specification words them do not hold: a
    302 is no success, a 2xx status, and its body is returned all the same;
    a 203 is a success, and with a sign-in page for a body the call returns
    nothing, it raises. *)
Lemma request_outcomes_counterexample :
  let call := _request scripted "pat" "GET" "/OmniStack/_apis/wit/workitems/7"
                       (Some [("api-version", "6.0")]) None in
  let moved := mkResponse 302 "[1]" (Some (JList [JNum 1])) in
  let page := mkResponse 203 "<html>Sign in</html>" None in
  (status_2xx moved = false
   ∧ (call (initial [Responded moved])).1 = Ok (JList [JNum 1]))
  ∧ (status_2xx page = true
     ∧ content page ≠ ""
     ∧ (call (initial [Responded page])).1 = Raise JSONDecodeError).
Proof.
  intros call moved page. split; [split; reflexivity|].
  split; [reflexivity|]. split; [discriminate | reflexivity].
Qed.

(** ** Board and column resolution *)

Lemma first_named_passes (name : string) (pre rest : list json) :
  forallb (other_name name) pre = true →
  first_named name (pre ++ rest) = first_named name rest.
Proof.
  induction pre as [|b pre IH]; simpl; [done|].
  intros H. apply andb_prop in H as [Hb Hpre].
  unfold other_name in Hb. apply andb_prop in Hb as [Hobj Hne].
  destruct b as [| | | | |f]; try discriminate.
  unfold entry_name, entry_field in Hne. simpl.
  destruct (dict_get "name" f) as [n|]; simpl in *.
  - apply negb_true_iff in Hne. rewrite Hne. by apply IH.
  - by apply IH.
Qed.

Lemma first_named_none (name : string) (xs : list json) :
  forallb (other_name name) xs = true → first_named name xs = Ok None.
Proof.
  intros H. rewrite <- (app_nil_r xs). by rewrite first_named_passes.
Qed.

Lemma names_of_objects (xs : list json) :
  forallb is_object xs = true → names_of xs = Ok (map entry_name xs).
Proof.
  induction xs as [|b xs IH]; simpl; [done|].
  intros H. apply andb_prop in H as [Hobj Hxs].
  destruct b as [| | | | |f]; try discriminate.
  simpl. rewrite (IH Hxs). unfold entry_name. simpl.
  destruct (dict_get "name" f); reflexivity.
Qed.

Lemma other_name_objects (name : string) (xs : list json) :
  forallb (other_name name) xs = true → forallb is_object xs = true.
Proof.
  induction xs as [|b xs IH]; simpl; [done|].
  intros H. apply andb_prop in H as [Hb Hxs].
  apply andb_prop in Hb as [-> _]. by apply IH.
Qed.

(** The first entry named [name] is the one resolved, and its id returned. *)
Lemma resolve_by_name_found (name : string) (not_found : json → string)
    (pre rest : list json) (f : list (string * json)) (id : json) :
  forallb (other_name name) pre = true →
  dict_get "name" f = Some (JStr name) →
  dict_get "id" f = Some id →
  resolve_by_name name not_found (JList (pre ++ JObj f :: rest))
  = Ok (id, JStr name).
Proof.
  intros Hpre Hname Hid. unfold resolve_by_name. simpl.
  rewrite (first_named_passes _ _ _ Hpre). simpl.
  rewrite Hname. simpl. rewrite String.eqb_refl. simpl.
  destruct f as [|kv f]; [discriminate|].
  simpl in *. by rewrite Hid, Hname.
Qed.

(** No entry named [name]: the error, with the names there are. *)
Lemma resolve_by_name_missing (name : string) (not_found : json → string)
    (xs : list json) :
  forallb (other_name name) xs = true →
  resolve_by_name name not_found (JList xs)
  = Raise (RuntimeError (not_found (JList (map entry_name xs)))).
Proof.
  intros H. unfold resolve_by_name. simpl.
  rewrite (first_named_none _ _ H). simpl.
  by rewrite (names_of_objects _ (other_name_objects _ _ H)).
Qed.

Section Resolution.

Context {World : Type}.
Variable rr : http_call → World → http_outcome * World.
Variable PAT : string.

(** C6.  Board resolution and column resolution return the id of the entry
    of the fetched list whose name is the configured one, compared as
    strings, letter case included; with no such entry they fail with the
    error whose message lists the names there are.  From the list
    [{name: "Stories", id: 3}], "Stories" resolves to 3 and "Backlog" fails
    with a message that lists ['Stories']. *)
Theorem resolution_by_exact_name (project team : string) (st st' : state World) :
  (∀ (name : string) (pre rest : list json) (f : list (string * json)) (id : json),
     get_team_boards rr PAT project team st
       = (Ok (JList (pre ++ JObj f :: rest)), st') →
     forallb (other_name name) pre = true →
     dict_get "name" f = Some (JStr name) →
     dict_get "id" f = Some id →
     get_board_id_by_name rr PAT project team name st
       = (Ok (id, JStr name), st'))
  ∧ (∀ (name : string) (boards : list json),
       get_team_boards rr PAT project team st = (Ok (JList boards), st') →
       forallb (other_name name) boards = true →
       get_board_id_by_name rr PAT project team name st
       = (Raise (RuntimeError
                   ("Board '" +:+ name +:+ "' not found for team '" +:+ team
                    +:+ "'. Available: " +:+ py_str (JList (map entry_name boards)))),
          st'))
  ∧ (∀ (board_id : json) (name : string) (pre rest : list json)
       (f : list (string * json)) (id : json),
       get_board_columns rr PAT project team board_id st
         = (Ok (JList (pre ++ JObj f :: rest)), st') →
       forallb (other_name name) pre = true →
       dict_get "name" f = Some (JStr name) →
       dict_get "id" f = Some id →
       get_column_id_by_name rr PAT project team board_id name st
         = (Ok (id, JStr name), st'))
  ∧ (∀ (board_id : json) (name : string) (cols : list json),
       get_board_columns rr PAT project team board_id st = (Ok (JList cols), st') →
       forallb (other_name name) cols = true →
       get_column_id_by_name rr PAT project team board_id name st
       = (Raise (RuntimeError
                   ("Column '" +:+ name +:+ "' not found on board id "
                    +:+ py_str board_id +:+ ". Available: "
                    +:+ py_str (JList (map entry_name cols)))),
          st'))
  ∧ (let listed := answer_json
                     (JObj [("count", JNum 1);
                            ("value", JList [JObj [("id", JNum 3);
                                                   ("name", JStr "Stories")]])]) in
     fst (get_board_id_by_name scripted PAT "OmniStack" "WASP" "Stories"
            (initial [listed]))
       = Ok (JNum 3, JStr "Stories")
     ∧ fst (get_board_id_by_name scripted PAT "OmniStack" "WASP" "Backlog"
              (initial [listed]))
       = Raise (RuntimeError
                  "Board 'Backlog' not found for team 'WASP'. Available: ['Stories']")
     ∧ fst (get_board_id_by_name scripted PAT "OmniStack" "WASP" "stories"
              (initial [listed]))
       = Raise (RuntimeError
                  "Board 'stories' not found for team 'WASP'. Available: ['Stories']")
     ∧ fst (get_column_id_by_name scripted PAT "OmniStack" "WASP" (JNum 3) "Stories"
              (initial [listed]))
       = Ok (JNum 3, JStr "Stories")
     ∧ fst (get_column_id_by_name scripted PAT "OmniStack" "WASP" (JNum 3) "Backlog"
              (initial [listed]))
       = Raise (RuntimeError
                  "Column 'Backlog' not found on board id 3. Available: ['Stories']")).
Proof.
  split; [|split; [|split; [|split]]].
  - intros name pre rest f id Hlist Hpre Hname Hid.
    unfold get_board_id_by_name, bind. rewrite Hlist. unfold lift.
    by rewrite (resolve_by_name_found _ _ _ _ _ _ Hpre Hname Hid).
  - intros name boards Hlist Hnone.
    unfold get_board_id_by_name, bind. rewrite Hlist. unfold lift.
    rewrite (resolve_by_name_missing _ _ _ Hnone).
    reflexivity.
  - intros board_id name pre rest f id Hlist Hpre Hname Hid.
    unfold get_column_id_by_name, bind. rewrite Hlist. unfold lift.
    by rewrite (resolve_by_name_found _ _ _ _ _ _ Hpre Hname Hid).
  - intros board_id name cols Hlist Hnone.
    unfold get_column_id_by_name, bind. rewrite Hlist. unfold lift.
    rewrite (resolve_by_name_missing _ _ _ Hnone).
    reflexivity.
  - repeat split; reflexivity.
Qed.

End Resolution.

Lemma resolution_by_exact_name_witness :
  let backlog := JObj [("id", JStr "b-1"); ("name", JStr "Backlog items")] in
  let stories := [("id", JStr "b-2"); ("name", JStr "Stories")] in
  let st : state script :=
    initial [answer_json (JObj [("value", JList [backlog; JObj stories])])] in
  (∃ st', get_board_id_by_name scripted "pat" "OmniStack" "WASP" "Stories" st
          = (Ok (JStr "b-2", JStr "Stories"), st'))
  ∧ (∃ st', get_column_id_by_name scripted "pat" "OmniStack" "WASP" (JStr "b-2")
              "Ready for QA" st
            = (Raise (RuntimeError
                        ("Column 'Ready for QA' not found on board id b-2. "
                         +:+ "Available: ['Backlog items', 'Stories']")),
               st')).
Proof.
  intros backlog stories st. split.
  - eexists.
    apply (proj1 (resolution_by_exact_name scripted "pat" "OmniStack" "WASP" st _)
             "Stories" [backlog] [] stories (JStr "b-2")); reflexivity.
  - eexists.
    apply (proj1 (proj2 (proj2 (proj2
             (resolution_by_exact_name scripted "pat" "OmniStack" "WASP" st _))))
             (JStr "b-2") "Ready for QA" [backlog; JObj stories]); reflexivity.
Defined.

(** ** The monad: inversion, and what computations leave in the trace *)

Section Effects.

Context {World : Type}.

Lemma bind_inv {A B : Type} (m : M World A) (k : A → M World B)
    (st st' : state World) (r : result B) :
  bind m k st = (r, st') →
  (∃ a st1, m st = (Ok a, st1) ∧ k a st1 = (r, st'))
  ∨ (∃ e, m st = (Raise e, st') ∧ r = Raise e).
Proof.
  unfold bind. destruct (m st) as [[a|e] st1]; intros H.
  - left. by exists a, st1.
  - right. exists e. by injection H as <- <-.
Qed.

Lemma lift_inv {A : Type} (x : result A) (st st' : state World) (r : result A) :
  lift x st = (r, st') → r = x ∧ st' = st.
Proof. unfold lift. by intros [= <- <-]. Qed.

Lemma added_keys_app (evs1 evs2 : list event) :
  added_keys (evs1 ++ evs2) = added_keys evs1 ∪ added_keys evs2.
Proof.
  induction evs1 as [|ev evs1 IH]; simpl; [set_solver|].
  destruct ev; rewrite ?IH; set_solver.
Qed.

Lemma added_keys_neutral (evs : list event) :
  Forall neutral evs → added_keys evs = ∅.
Proof.
  induction 1 as [|ev evs Hev _ IH]; simpl; [done|].
  by destruct ev.
Qed.

Lemma plain_neutral (ev : event) : plain ev → neutral ev.
Proof. by destruct ev. Qed.

Lemma plain_not_query (ev : event) : plain ev → not_query ev.
Proof. by destruct ev. Qed.

Section Tracked.

Variable P : event → Prop.

Lemma tracked_ret {A : Type} (a : A) : tracked P (ret (World:=World) a).
Proof.
  intros st r st' [= <- <-]. exists []. rewrite app_nil_r.
  repeat split; [constructor | set_solver].
Qed.

Lemma tracked_raise {A : Type} (e : exn) : tracked P (raise World (A:=A) e).
Proof.
  intros st r st' [= <- <-]. exists []. rewrite app_nil_r.
  repeat split; [constructor | set_solver].
Qed.

Lemma tracked_lift {A : Type} (x : result A) : tracked P (lift (World:=World) x).
Proof.
  intros st r st' [= <- <-]. exists []. rewrite app_nil_r.
  repeat split; [constructor | set_solver].
Qed.

Lemma tracked_emit (ev : event) :
  P ev → added_keys [ev] = ∅ → tracked P (emit (World:=World) ev).
Proof.
  intros HP Hadd st r st' [= <- <-]. exists [ev].
  split; [done|]. split; [by apply Forall_singleton|].
  rewrite Hadd. simpl. set_solver.
Qed.

Lemma tracked_http (rr : http_call → World → http_outcome * World) (c : http_call) :
  P (EvHttp c) → tracked P (http rr c).
Proof.
  intros HP st r st'. unfold http.
  destruct (rr c (world st)) as [[resp|e] w]; intros [= <- <-];
    exists [EvHttp c];
    (split; [done|]; split; [by apply Forall_singleton|]; simpl; set_solver).
Qed.

Lemma tracked_seen_lacks (wid : json) : tracked P (seen_lacks (World:=World) wid).
Proof.
  intros st r st'. unfold seen_lacks.
  destruct (py_hashable wid); intros [= <- <-]; exists [];
    rewrite app_nil_r; (repeat split; [constructor | set_solver]).
Qed.

Lemma tracked_seen_add (wid : json) :
  (∀ k, P (EvSeenAdd k)) → tracked P (seen_add (World:=World) wid).
Proof.
  intros HP st r st'. unfold seen_add.
  destruct (py_hashable wid) as [k|]; intros [= <- <-].
  - exists [EvSeenAdd k].
    split; [done|]. split; [by apply Forall_singleton|]. simpl. set_solver.
  - exists []. rewrite app_nil_r. repeat split; [constructor | set_solver].
Qed.

Lemma tracked_bind {A B : Type} (m : M World A) (k : A → M World B) :
  tracked P m → (∀ a, tracked P (k a)) → tracked P (bind m k).
Proof.
  intros Hm Hk st r st' H.
  apply bind_inv in H as [(a & st1 & H1 & H2) | (e & H1 & ->)].
  - destruct (Hm _ _ _ H1) as (evs1 & T1 & F1 & S1).
    destruct (Hk a _ _ _ H2) as (evs2 & T2 & F2 & S2).
    exists (evs1 ++ evs2). rewrite T2, T1, S2, S1, added_keys_app.
    repeat split; [by rewrite app_assoc | by apply Forall_app | set_solver].
  - exact (Hm _ _ _ H1).
Qed.

Lemma tracked_try {A : Type} (body : M World A) (handler : exn → M World A) :
  tracked P body → (∀ e, tracked P (handler e)) → tracked P (try_except body handler).
Proof.
  intros Hb Hh st r st'. unfold try_except.
  destruct (body st) as [[a|e] st1] eqn:H1; intros H.
  - injection H as <- <-. exact (Hb _ _ _ H1).
  - destruct (Hb _ _ _ H1) as (evs1 & T1 & F1 & S1).
    destruct (Hh e _ _ _ H) as (evs2 & T2 & F2 & S2).
    exists (evs1 ++ evs2). rewrite T2, T1, S2, S1, added_keys_app.
    repeat split; [by rewrite app_assoc | by apply Forall_app | set_solver].
Qed.

Lemma tracked_for_each {A : Type} (body : A → M World unit) (xs : list A) :
  (∀ x, tracked P (body x)) → tracked P (for_each body xs).
Proof.
  intros Hbody. induction xs as [|x xs IH]; simpl.
  - apply tracked_ret.
  - apply tracked_bind; [apply Hbody | intros _; exact IH].
Qed.

End Tracked.

Lemma tracked_mono {A : Type} (P Q : event → Prop) (m : M World A) :
  (∀ ev, P ev → Q ev) → tracked P m → tracked Q m.
Proof.
  intros HPQ Hm st r st' H. destruct (Hm _ _ _ H) as (evs & T & F & S).
  exists evs. repeat split; [done | | done].
  eapply Forall_impl; eauto.
Qed.

(** A computation that leaves neutral events only leaves [seen_ids] alone. *)
Lemma tracked_neutral_seen {A : Type} (m : M World A)
    (st st' : state World) (r : result A) :
  tracked neutral m → m st = (r, st') → seen_ids st' = seen_ids st.
Proof.
  intros Hm H. destruct (Hm _ _ _ H) as (evs & _ & F & ->).
  rewrite (added_keys_neutral _ F). set_solver.
Qed.

End Effects.

(** ** What the functions of the script leave in the trace *)

Ltac tracked_step plain_P :=
  first
    [ apply tracked_ret
    | apply tracked_raise
    | apply tracked_lift
    | apply tracked_seen_lacks
    | apply tracked_http; apply plain_P; exact I
    | apply tracked_emit; [apply plain_P; exact I | reflexivity]
    | apply tracked_try; [|intros ?]
    | apply tracked_bind; [|intros ?]
    | match goal with
      | |- tracked _ (if ?b then _ else _) => destruct b
      | |- tracked _ (match ?x with _ => _ end) => destruct x
      end ].

Section PlainCode.

Context {World : Type}.
Variable rr : http_call → World → http_outcome * World.
Variables PAT SLACK_WEBHOOK : string.
Variable P : event → Prop.
Hypothesis plain_P : ∀ ev, plain ev → P ev.

Lemma request_tracked (method path : string)
    (params : option (list (string * string))) (json_arg : option json) :
  tracked P (_request rr PAT method path params json_arg).
Proof.
  unfold _request, raise_for_status, response_json. cbv zeta.
  repeat tracked_step plain_P.
Qed.

Lemma post_to_slack_tracked (text : string) :
  tracked P (post_to_slack rr SLACK_WEBHOOK text).
Proof. unfold post_to_slack, print. repeat tracked_step plain_P. Qed.

Lemma get_work_item_tracked (project : string) (wid : json) :
  tracked P (get_work_item rr PAT project wid).
Proof.
  unfold get_work_item, azure_get.
  apply tracked_bind; [|intros _; apply request_tracked].
  tracked_step plain_P.
Qed.

Lemma get_board_id_by_name_tracked (project team board_name : string) :
  tracked P (get_board_id_by_name rr PAT project team board_name).
Proof.
  unfold get_board_id_by_name, get_team_boards, azure_get.
  repeat first [apply request_tracked | tracked_step plain_P].
Qed.

Lemma get_column_id_by_name_tracked (project team : string) (board_id : json)
    (column_name : string) :
  tracked P (get_column_id_by_name rr PAT project team board_id column_name).
Proof.
  unfold get_column_id_by_name, get_board_columns, azure_get.
  repeat first [apply request_tracked | tracked_step plain_P].
Qed.

Lemma get_team_area_predicate_tracked (project team : string) :
  tracked P (get_team_area_predicate rr PAT project team).
Proof.
  unfold get_team_area_predicate, azure_get.
  repeat first [apply request_tracked | tracked_step plain_P].
Qed.

End PlainCode.

(** ** The monitor *)

Lemma monitor_run_app (ms : monitor) (evs1 evs2 : list event) :
  monitor_run ms (evs1 ++ evs2) =
  match monitor_run ms evs1 with
  | Some ms' => monitor_run ms' evs2
  | None => None
  end.
Proof.
  revert ms. induction evs1 as [|ev evs1 IH]; intros ms; simpl; [done|].
  destruct (monitor_step ms ev); [apply IH | done].
Qed.

Lemma monitor_step_neutral (ms : monitor) (ev : event) :
  neutral ev → monitor_step ms ev = Some ms.
Proof. by destruct ev. Qed.

Lemma monitor_run_neutral (ms : monitor) (evs : list event) :
  Forall neutral evs → monitor_run ms evs = Some ms.
Proof.
  induction 1 as [|ev evs Hev _ IH]; simpl; [done|].
  by rewrite (monitor_step_neutral _ _ Hev).
Qed.

Lemma monitor_run_plain (ms : monitor) (evs : list event) :
  Forall plain evs → monitor_run ms evs = Some ms.
Proof.
  intros H. apply monitor_run_neutral.
  eapply Forall_impl; [exact H | exact plain_neutral].
Qed.

(** The seen set of the monitor only grows, and holds every key the trace
    adds. *)
Lemma monitor_run_seen (evs : list event) : ∀ (ms ms' : monitor),
  monitor_run ms evs = Some ms' → ms'.1 = added_keys evs ∪ ms.1.
Proof.
  induction evs as [|ev evs IH]; intros ms ms'; simpl.
  - intros [= <-]. set_solver.
  - destruct (monitor_step ms ev) as [ms1|] eqn:Hstep; [|done].
    intros H. rewrite (IH _ _ H).
    destruct ev; simpl in Hstep;
      try (injection Hstep as <-; set_solver).
    + case_bool_decide; [done|]. injection Hstep as <-. simpl. set_solver.
    + destruct (py_hashable wid), ms.2; try done.
      case_bool_decide; [|done]. injection Hstep as <-. simpl. set_solver.
Qed.

Lemma monitor_step_pending (ms ms' : monitor) (ev : event) :
  pending_seen ms → monitor_step ms ev = Some ms' → pending_seen ms'.
Proof.
  intros Hp Hstep. destruct ev; simpl in Hstep;
    try (by injection Hstep as <-).
  - case_bool_decide; [done|]. injection Hstep as <-.
    intros k' [= <-]. simpl. set_solver.
  - destruct (py_hashable wid), ms.2; try done.
    case_bool_decide; [|done]. injection Hstep as <-. by intros k'.
Qed.

(** In a trace the monitor follows, the notified keys are distinct, and
    each is the key pending at the start or a key that was not seen at the
    start and is seen at the end. *)
Lemma monitor_run_notified (evs : list event) : ∀ (ms ms' : monitor),
  pending_seen ms →
  monitor_run ms evs = Some ms' →
  NoDup (notified_keys evs)
  ∧ ∀ k, k ∈ notified_keys evs →
         ms.2 = Some k ∨ ((k ∉ ms.1) ∧ k ∈ ms'.1).
Proof.
  induction evs as [|ev evs IH]; intros ms ms' Hp; simpl.
  - intros _. split; [constructor|]. intros k Hk. by apply elem_of_nil in Hk.
  - destruct (monitor_step ms ev) as [ms1|] eqn:Hstep; [|done].
    intros Hrun.
    pose proof (monitor_step_pending _ _ _ Hp Hstep) as Hp1.
    destruct (IH _ _ Hp1 Hrun) as [Hnd Hin].
    pose proof (monitor_run_seen _ _ _ Hrun) as Hseen.
    destruct ev; simpl in Hstep;
      try (injection Hstep as <-; by split).
    + (* an add *)
      case_bool_decide as Hk; [done|]. injection Hstep as <-.
      split; [done|]. intros k' Hk'. right.
      destruct (Hin _ Hk') as [[= <-] | [Hout Hend]]; simpl in *.
      * split; [done|]. rewrite Hseen. set_solver.
      * split; [set_solver | done].
    + (* a notification *)
      destruct (py_hashable wid) as [k|] eqn:Hwid; [|done].
      destruct ms.2 as [k'|] eqn:Hpend; [|done].
      case_bool_decide as Hkk; [|done]. subst k'. injection Hstep as <-.
      simpl in *. split.
      * constructor; [|done]. intros Hagain.
        destruct (Hin _ Hagain) as [? | [Hout _]]; [done|].
        apply Hout. by apply Hp.
      * intros k' Hk'. apply elem_of_cons in Hk' as [-> | Hk']; [by left|].
        destruct (Hin _ Hk') as [? | ?]; [done | by right].
Qed.

(** In a trace the monitor follows from no pending key, a notification
    comes after the add of its key. *)
Lemma monitor_run_add_first (evs : list event) : ∀ (ms ms' : monitor)
    (pre post : list event) (wid : json) (text : string),
  monitor_run ms evs = Some ms' →
  evs = pre ++ EvNotify wid text :: post →
  ∃ k, py_hashable wid = Some k
       ∧ (EvSeenAdd k ∈ pre ∨ (ms.2 = Some k ∧ added_keys pre = ∅)).
Proof.
  induction evs as [|ev evs IH]; intros ms ms' pre post wid text; simpl.
  - intros _ H. by destruct pre.
  - destruct (monitor_step ms ev) as [ms1|] eqn:Hstep; [|done].
    intros Hrun Hsplit. destruct pre as [|ev' pre]; simpl in Hsplit.
    + injection Hsplit as -> ->. simpl in Hstep.
      destruct (py_hashable wid) as [k|]; [|done].
      destruct ms.2 as [k'|]; [|done].
      case_bool_decide; [|done]. subst k'.
      exists k. split; [done|]. by right.
    + injection Hsplit as <- ->.
      destruct (IH _ _ _ _ _ _ Hrun eq_refl) as (k & Hk & Hcase).
      exists k. split; [done|].
      destruct Hcase as [Hadd | [Hpend Hnone]].
      * left. apply elem_of_cons. by right.
      * destruct ev; simpl in Hstep;
          try (injection Hstep as <-; right; by split).
        -- case_bool_decide; [done|]. injection Hstep as <-.
           simpl in Hpend. injection Hpend as ->. left.
           apply elem_of_cons. by left.
        -- destruct (py_hashable wid0), ms.2; try done.
           case_bool_decide; [|done]. by injection Hstep as <-.
Qed.

(** ** The loop *)

Section Loop.

Context {World : Type}.
Variable rr : http_call → World → http_outcome * World.
Variables PAT SLACK_WEBHOOK : string.

Lemma accepted_ret {A : Type} (a : A) : accepted (ret (World:=World) a).
Proof.
  intros st r st' [= <- <-]. exists []. rewrite app_nil_r.
  split; [done|]. intros p. by exists p.
Qed.

Lemma accepted_tracked {A : Type} (m : M World A) :
  tracked neutral m → accepted m.
Proof.
  intros Hm st r st' H. destruct (Hm _ _ _ H) as (evs & T & F & S).
  exists evs. split; [done|]. intros p. exists p.
  rewrite (monitor_run_neutral _ _ F), S, (added_keys_neutral _ F).
  f_equal. f_equal. set_solver.
Qed.

Lemma accepted_bind {A B : Type} (m : M World A) (k : A → M World B) :
  accepted m → (∀ a, accepted (k a)) → accepted (bind m k).
Proof.
  intros Hm Hk st r st' H.
  apply bind_inv in H as [(a & st1 & H1 & H2) | (e & H1 & ->)].
  - destruct (Hm _ _ _ H1) as (evs1 & T1 & R1).
    destruct (Hk a _ _ _ H2) as (evs2 & T2 & R2).
    exists (evs1 ++ evs2). split; [by rewrite T2, T1, app_assoc|].
    intros p. destruct (R1 p) as [p1 R1p]. destruct (R2 p1) as [p' R2p].
    exists p'. by rewrite monitor_run_app, R1p.
  - exact (Hm _ _ _ H1).
Qed.

Lemma accepted_try {A : Type} (body : M World A) (handler : exn → M World A) :
  accepted body → (∀ e, accepted (handler e)) → accepted (try_except body handler).
Proof.
  intros Hb Hh st r st'. unfold try_except.
  destruct (body st) as [[a|e] st1] eqn:H1; intros H.
  - injection H as <- <-. exact (Hb _ _ _ H1).
  - destruct (Hb _ _ _ H1) as (evs1 & T1 & R1).
    destruct (Hh e _ _ _ H) as (evs2 & T2 & R2).
    exists (evs1 ++ evs2). split; [by rewrite T2, T1, app_assoc|].
    intros p. destruct (R1 p) as [p1 R1p]. destruct (R2 p1) as [p' R2p].
    exists p'. by rewrite monitor_run_app, R1p.
Qed.

Lemma accepted_for_each {A : Type} (body : A → M World unit) (xs : list A) :
  (∀ x, accepted (body x)) → accepted (for_each body xs).
Proof.
  intros Hbody. induction xs as [|x xs IH]; simpl.
  - apply accepted_ret.
  - apply accepted_bind; [apply Hbody | intros _; exact IH].
Qed.

Lemma notifies_at_most_bind {A B : Type} (wid : json)
    (m : M World A) (k : A → M World B) :
  tracked plain m →
  (∀ a, notifies_at_most wid (k a)) →
  notifies_at_most wid (bind m k).
Proof.
  intros Hm Hk st r st' H.
  apply bind_inv in H as [(a & st1 & H1 & H2) | (e & H1 & ->)].
  - destruct (Hm _ _ _ H1) as (evs0 & T0 & F0 & S0).
    destruct (Hk a _ _ _ H2) as (S1 & evs1 & tail & T1 & F1 & Htail).
    assert (seen_ids st1 = seen_ids st) as Hsame.
    { rewrite S0, (added_keys_neutral evs0); [set_solver|].
      eapply Forall_impl; [exact F0 | exact plain_neutral]. }
    split; [by rewrite S1|].
    exists (evs0 ++ evs1), tail.
    split; [by rewrite T1, T0, <- !app_assoc|].
    split; [by apply Forall_app | done].
  - destruct (Hm _ _ _ H1) as (evs0 & T0 & F0 & S0).
    split.
    { rewrite S0, (added_keys_neutral evs0); [set_solver|].
      eapply Forall_impl; [exact F0 | exact plain_neutral]. }
    exists evs0, []. rewrite app_nil_r. split; [done|]. split; [done | by left].
Qed.

Lemma notifies_at_most_notify {A : Type} (wid : json) (text : string)
    (m : M World A) :
  tracked plain m →
  (∀ st, ∃ a, (m st).1 = Ok a) →
  notifies_at_most wid (bind (emit (EvNotify wid text)) (λ _, m)).
Proof.
  intros Hm Hok st r st' H. unfold bind, emit in H.
  destruct (Hok (mkState (world st) (seen_ids st)
                         (trace st ++ [EvNotify wid text]))) as [a Ha].
  rewrite H in Ha. simpl in Ha.
  destruct (Hm _ _ _ H) as (evs2 & T2 & F2 & S2). simpl in T2, S2.
  split.
  { rewrite S2, (added_keys_neutral evs2); [set_solver|].
    eapply Forall_impl; [exact F2 | exact plain_neutral]. }
  exists [], (EvNotify wid text :: evs2).
  split; [by rewrite T2, <- app_assoc|].
  split; [constructor|]. right. by exists text, evs2, a.
Qed.

(** [post_to_slack] returns, whatever the webhook does. *)
Lemma post_to_slack_returns (text : string) (st : state World) :
  ∃ a, (post_to_slack rr SLACK_WEBHOOK text st).1 = Ok a.
Proof.
  exists tt. unfold post_to_slack, try_except, bind, http, print, emit, ret.
  by destruct (rr _ (world st)) as [[resp|e] w].
Qed.

(** What the loop does to an unseen [wid] once it is recorded: the fetch,
    then at most the one notification. *)
Lemma loop_item_tail (wid : json) :
  notifies_at_most wid
    (bind (get_work_item rr PAT AZURE_PROJ wid) (λ details,
     bind (lift (py_getitem details "fields")) (λ fields,
     bind (lift (py_get fields "System.Title" JNull)) (λ title,
     bind (lift (py_getitem details "_links")) (λ links,
     bind (lift (py_getitem links "html")) (λ html,
     bind (lift (py_getitem html "href")) (λ url,
     bind (emit (EvNotify wid (ticket_message url wid title))) (λ _,
     post_to_slack rr SLACK_WEBHOOK (ticket_message url wid title))))))))).
Proof.
  apply notifies_at_most_bind; [by apply get_work_item_tracked|]. intros details.
  do 5 (apply notifies_at_most_bind; [apply tracked_lift|]; intros ?).
  apply notifies_at_most_notify; [by apply post_to_slack_tracked|].
  apply post_to_slack_returns.
Qed.

(** One turn of the item loop, in full: nothing happens, or the key of the
    item's id was not seen, is recorded first, and what follows is the fetch
    and at most one notification, for that id. *)
Lemma loop_item_spec (itm : json) (st st' : state World) (r : result unit) :
  loop_item rr PAT SLACK_WEBHOOK itm st = (r, st') →
  st' = st
  ∨ ∃ wid k evs1 tail,
      py_getitem itm "id" = Ok wid
      ∧ py_hashable wid = Some k
      ∧ (k ∉ seen_ids st)
      ∧ seen_ids st' = {[k]} ∪ seen_ids st
      ∧ trace st' = trace st ++ EvSeenAdd k :: evs1 ++ tail
      ∧ Forall plain evs1
      ∧ (tail = [] ∨ ∃ text evs2, tail = EvNotify wid text :: evs2
                                   ∧ Forall plain evs2
                                   ∧ r = Ok tt).
Proof.
  unfold loop_item. intros H.
  apply bind_inv in H as [(wid & st1 & H1 & H) | (e & H1 & ->)];
    apply lift_inv in H1 as [Hwid ->]; [|by left].
  apply bind_inv in H as [(unseen & st2 & H2 & H) | (e & H2 & ->)];
    unfold seen_lacks in H2;
    destruct (py_hashable wid) as [k|] eqn:Hk; try discriminate;
    injection H2 as <- <-; [|by left].
  case_bool_decide as Hnew; [|injection H as <- <-; by left].
  apply bind_inv in H as [(? & st3 & H3 & H) | (e & H3 & ->)];
    unfold seen_add in H3; rewrite Hk in H3; [|discriminate].
  injection H3 as _ <-. cbv zeta in H.
  destruct (loop_item_tail wid _ _ _ H) as (S & evs1 & tail & T & F & Htail).
  simpl in S, T. right. exists wid, k, evs1, tail.
  split; [by symmetry|]. split; [done|]. split; [done|]. split; [done|].
  split; [by rewrite T, <- app_assoc|]. split; [done|].
  destruct Htail as [-> | (text & evs2 & [] & -> & F2 & ->)]; [by left|].
  right. by exists text, evs2.
Qed.

Lemma loop_item_accepted (itm : json) :
  accepted (loop_item rr PAT SLACK_WEBHOOK itm).
Proof.
  intros st r st' H.
  destruct (loop_item_spec _ _ _ _ H)
    as [-> | (wid & k & evs1 & tail & _ & Hk & Hnew & S & T & F & Htail)].
  - exists []. rewrite app_nil_r. split; [done|]. intros p. by exists p.
  - exists (EvSeenAdd k :: evs1 ++ tail). split; [done|]. intros p.
    simpl. rewrite bool_decide_eq_false_2 by done.
    rewrite monitor_run_app, (monitor_run_plain _ _ F), S.
    destruct Htail as [-> | (text & evs2 & -> & F2 & _)]; simpl.
    + by eexists.
    + rewrite Hk. rewrite bool_decide_eq_true_2 by done.
      rewrite (monitor_run_plain _ _ F2). by eexists.
Qed.

Lemma loop_item_tracked (itm : json) :
  tracked not_query (loop_item rr PAT SLACK_WEBHOOK itm).
Proof.
  intros st r st' H.
  destruct (loop_item_spec _ _ _ _ H)
    as [-> | (wid & k & evs1 & tail & _ & Hk & Hnew & S & T & F & Htail)].
  - exists []. rewrite app_nil_r. repeat split; [constructor | set_solver].
  - exists (EvSeenAdd k :: evs1 ++ tail). split; [done|].
    assert (Forall plain evs1 → Forall not_query evs1) as Hnq.
    { intros F'. eapply Forall_impl; [exact F' | exact plain_not_query]. }
    assert (Forall plain evs1 → added_keys evs1 = ∅) as Hnone.
    { intros F'. apply added_keys_neutral.
      eapply Forall_impl; [exact F' | exact plain_neutral]. }
    destruct Htail as [-> | (text & evs2 & -> & F2 & _)].
    + rewrite app_nil_r. split.
      * constructor; [exact I | by apply Hnq].
      * simpl. rewrite (Hnone F), S. set_solver.
    + split.
      * constructor; [exact I|]. apply Forall_app. split; [by apply Hnq|].
        constructor; [exact I|].
        eapply Forall_impl; [exact F2 | exact plain_not_query].
      * simpl. rewrite added_keys_app, (Hnone F). simpl.
        rewrite (added_keys_neutral evs2), S; [set_solver|].
        eapply Forall_impl; [exact F2 | exact plain_neutral].
Qed.

(** An item whose id is seen is passed over: no fetch, no notification, no
    change at all. *)
Lemma loop_item_seen (itm wid : json) (k : pykey) (st : state World) :
  py_getitem itm "id" = Ok wid →
  py_hashable wid = Some k →
  k ∈ seen_ids st →
  loop_item rr PAT SLACK_WEBHOOK itm st = (Ok tt, st).
Proof.
  intros Hwid Hk Hseen. unfold loop_item, bind, lift, seen_lacks.
  rewrite Hwid, Hk. rewrite bool_decide_eq_false_2; [done|]. by intros ?.
Qed.

(** An item whose id is not seen is taken up: recorded, then fetched. *)
Lemma loop_item_unseen (itm wid : json) (k : pykey) (st : state World) :
  py_getitem itm "id" = Ok wid →
  py_hashable wid = Some k →
  k ∉ seen_ids st →
  ∃ evs, trace (loop_item rr PAT SLACK_WEBHOOK itm st).2
         = trace st ++ EvSeenAdd k :: EvFetch wid :: evs.
Proof.
  intros Hwid Hk Hnew.
  unfold loop_item, bind at 1 2 3, lift at 1, seen_lacks, seen_add.
  rewrite Hwid, Hk. rewrite bool_decide_eq_true_2 by done. cbv zeta.
  match goal with
  | |- context [bind (get_work_item _ _ ?proj _) ?K ?s] =>
      pose (rest := bind (azure_get rr PAT
                            (proj +:+ "/_apis/wit/workitems/" +:+ py_str wid)
                            (api_version "6.0")) K);
      change (bind (get_work_item rr PAT proj wid) K s)
        with (rest (mkState (world s) (seen_ids s) (trace s ++ [EvFetch wid])))
  end.
  assert (tracked (λ _, True) rest) as Htr.
  { apply tracked_bind; [by apply request_tracked|]. intros details.
    do 5 (apply tracked_bind; [apply tracked_lift | intros ?]).
    apply tracked_bind; [by apply tracked_emit|].
    intros _. by apply post_to_slack_tracked. }
  destruct (rest _) as [r st'] eqn:Hrun.
  destruct (Htr _ _ _ Hrun) as (evs & Hevs & _).
  exists evs. simpl in *. by rewrite Hevs, <- !app_assoc.
Qed.

(** Where the keys a pass over [xs] leaves in [seen_ids] come from. *)
Lemma for_each_loop_item_seen (xs : list json) : ∀ (st st' : state World)
    (r : result unit),
  for_each (loop_item rr PAT SLACK_WEBHOOK) xs st = (r, st') →
  ∀ k, k ∈ seen_ids st' → k ∈ seen_ids st ∨ Some k ∈ map item_key xs.
Proof.
  induction xs as [|x xs IH]; intros st st' r; simpl.
  - intros [= <- <-] k Hk. by left.
  - intros H k Hk.
    apply bind_inv in H as [(? & st1 & H1 & H2) | (e & H1 & ->)].
    + destruct (IH _ _ _ H2 k Hk) as [Hk1 | Hin].
      * destruct (loop_item_spec _ _ _ _ H1)
          as [-> | (wid & k' & _ & _ & Hwid & Hk' & _ & S & _)]; [by left|].
        rewrite S in Hk1. apply elem_of_union in Hk1 as [Hk1 | Hk1]; [|by left].
        apply elem_of_singleton in Hk1 as ->. right.
        apply elem_of_cons. left. unfold item_key. by rewrite Hwid.
      * right. apply elem_of_cons. by right.
    + destruct (loop_item_spec _ _ _ _ H1)
        as [-> | (wid & k' & _ & _ & Hwid & Hk' & _ & S & _)]; [by left|].
      rewrite S in Hk. apply elem_of_union in Hk as [Hk | Hk]; [|by left].
      apply elem_of_singleton in Hk as ->. right.
      apply elem_of_cons. left. unfold item_key. by rewrite Hwid.
Qed.

(** A pass that went through leaves the key of every item in [seen_ids]. *)
Lemma for_each_loop_item_done (xs : list json) : ∀ (st st' : state World),
  for_each (loop_item rr PAT SLACK_WEBHOOK) xs st = (Ok tt, st') →
  seen_ids st ⊆ seen_ids st'
  ∧ ∀ x, x ∈ xs → ∃ wid k, py_getitem x "id" = Ok wid
                           ∧ py_hashable wid = Some k
                           ∧ k ∈ seen_ids st'.
Proof.
  induction xs as [|x xs IH]; intros st st'; simpl.
  - intros [= <-]. split; [done|]. intros x Hx. by apply elem_of_nil in Hx.
  - intros H.
    apply bind_inv in H as [([] & st1 & H1 & H2) | (e & _ & [=])].
    destruct (IH _ _ H2) as [Hsub Hall].
    assert (seen_ids st ⊆ seen_ids st1
            ∧ ∃ wid k, py_getitem x "id" = Ok wid ∧ py_hashable wid = Some k
                       ∧ k ∈ seen_ids st1) as [Hsub1 (wid & k & Hwid & Hk & Hin)].
    { unfold loop_item in H1.
      apply bind_inv in H1 as [(wid & st2 & H3 & H1) | (e & _ & [=])].
      apply lift_inv in H3 as [Hwid ->].
      apply bind_inv in H1 as [(unseen & st3 & H4 & H1) | (e & _ & [=])].
      unfold seen_lacks in H4.
      destruct (py_hashable wid) as [k|] eqn:Hk; [|discriminate].
      injection H4 as <- <-.
      case_bool_decide as Hnew.
      - apply bind_inv in H1 as [([] & st4 & H5 & H1) | (e & _ & [=])].
        unfold seen_add in H5. rewrite Hk in H5. injection H5 as <-.
        cbv zeta in H1.
        destruct (loop_item_tail wid _ _ _ H1) as (S & _). simpl in S.
        rewrite S. split; [set_solver|]. exists wid, k.
        split; [by symmetry|]. split; [done|]. set_solver.
      - injection H1 as <-. split; [done|]. exists wid, k.
        split; [by symmetry|]. by split. }
    split; [set_solver|].
    intros y Hy. apply elem_of_cons in Hy as [-> | Hy]; [|by apply Hall].
    exists wid, k. split; [done|]. split; [done|]. set_solver.
Qed.

(** The query announces itself, sends its call, and leaves [seen_ids]
    alone. *)
Lemma query_shape (project column_name area : string)
    (st st' : state World) (r : result json) :
  query_items_in_board_column rr PAT project column_name area st = (r, st') →
  seen_ids st' = seen_ids st
  ∧ ∃ evs, trace st' = trace st ++ EvQuery :: evs ∧ Forall plain evs.
Proof.
  unfold query_items_in_board_column. unfold bind at 1, emit at 1. cbv zeta.
  intros H.
  match type of H with
  | ?m _ = _ => assert (tracked plain m) as Htr
  end.
  { apply tracked_bind; [by apply request_tracked | intros ?; apply tracked_lift]. }
  destruct (Htr _ _ _ H) as (evs & T & F & S). simpl in T, S.
  split.
  - rewrite S, (added_keys_neutral evs); [set_solver|].
    eapply Forall_impl; [exact F | exact plain_neutral].
  - exists evs. by rewrite T, <- app_assoc.
Qed.

Lemma query_accepted (project column_name area : string) :
  accepted (query_items_in_board_column rr PAT project column_name area).
Proof.
  intros st r st' H. destruct (query_shape _ _ _ _ _ _ H) as (S & evs & T & F).
  exists (EvQuery :: evs). split; [done|]. intros p. exists p.
  simpl. by rewrite (monitor_run_plain _ _ F), S.
Qed.

Lemma poll_try_accepted (area : string) :
  accepted (poll_try rr PAT SLACK_WEBHOOK area).
Proof.
  unfold poll_try.
  apply accepted_bind; [apply query_accepted | intros items].
  apply accepted_bind; [apply accepted_tracked, tracked_lift | intros its].
  apply accepted_for_each, loop_item_accepted.
Qed.

(** The guarded block opens with the one query of the turn. *)
Lemma poll_try_shape (area : string) (st st' : state World) (r : result unit) :
  poll_try rr PAT SLACK_WEBHOOK area st = (r, st') →
  ∃ evs, trace st' = trace st ++ EvQuery :: evs ∧ Forall not_query evs.
Proof.
  unfold poll_try. intros H.
  apply bind_inv in H as [(items & st1 & H1 & H) | (e & H1 & ->)];
    destruct (query_shape _ _ _ _ _ _ H1) as (_ & evs1 & T1 & F1);
    assert (Forall not_query evs1) as F1'
      by (eapply Forall_impl; [exact F1 | exact plain_not_query]).
  - assert (tracked not_query
              (bind (lift (py_iter items))
                    (λ its, for_each (loop_item rr PAT SLACK_WEBHOOK) its))) as Htr.
    { apply tracked_bind; [apply tracked_lift | intros its].
      apply tracked_for_each, loop_item_tracked. }
    destruct (Htr _ _ _ H) as (evs2 & T2 & F2 & _).
    exists (evs1 ++ evs2). split; [|by apply Forall_app].
    rewrite T2, T1. by rewrite <- app_assoc.
  - by exists evs1.
Qed.

(** A turn of the loop in closed form: what the guarded block left, the
    error line when it raised, and the sleep. *)
Lemma poll_cycle_unfold (area : string) (st : state World) :
  poll_cycle rr PAT SLACK_WEBHOOK area st =
  match poll_try rr PAT SLACK_WEBHOOK area st with
  | (Ok _, st1) =>
      (Ok tt, mkState (world st1) (seen_ids st1)
                      (trace st1 ++ [EvSleep POLL_INTERVAL]))
  | (Raise e, st1) =>
      (Ok tt, mkState (world st1) (seen_ids st1)
                      (trace st1 ++ [EvPrint (LogError e); EvSleep POLL_INTERVAL]))
  end.
Proof.
  unfold poll_cycle, bind, try_except, print, sleep, emit.
  destruct (poll_try rr PAT SLACK_WEBHOOK area st) as [[[]|e] st1]; simpl;
    [done|]. by rewrite <- app_assoc.
Qed.

Lemma poll_cycle_returns (area : string) (st : state World) :
  (poll_cycle rr PAT SLACK_WEBHOOK area st).1 = Ok tt.
Proof.
  rewrite poll_cycle_unfold.
  by destruct (poll_try rr PAT SLACK_WEBHOOK area st) as [[[]|e] st1].
Qed.

Lemma poll_cycle_accepted (area : string) :
  accepted (poll_cycle rr PAT SLACK_WEBHOOK area).
Proof.
  unfold poll_cycle.
  apply accepted_bind; [|intros _; apply accepted_tracked; by apply tracked_emit].
  apply accepted_try; [apply poll_try_accepted|].
  intros e. apply accepted_tracked. by apply tracked_emit.
Qed.

Lemma poll_cycle_shape (area : string) (st : state World) :
  ∃ evs, trace (poll_cycle rr PAT SLACK_WEBHOOK area st).2
         = trace st ++ EvQuery :: evs ++ [EvSleep POLL_INTERVAL]
         ∧ Forall not_query evs.
Proof.
  rewrite poll_cycle_unfold.
  destruct (poll_try rr PAT SLACK_WEBHOOK area st) as [[[]|e] st1] eqn:H;
    destruct (poll_try_shape _ _ _ _ H) as (evs & T & F); simpl; rewrite T.
  - exists evs. split; [|done]. by rewrite <- app_assoc.
  - exists (evs ++ [EvPrint (LogError e)]). split.
    + by rewrite <- !app_assoc.
    + apply Forall_app. split; [done|]. by constructor.
Qed.

Lemma poll_loop_returns (area : string) (n : nat) : ∀ st : state World,
  (poll_loop rr PAT SLACK_WEBHOOK area n st).1 = Ok tt.
Proof.
  induction n as [|n IH]; intros st; simpl; [done|].
  unfold bind. pose proof (poll_cycle_returns area st) as Hc.
  destruct (poll_cycle rr PAT SLACK_WEBHOOK area st) as [r st1].
  simpl in Hc. subst r. apply IH.
Qed.

Lemma poll_loop_accepted (area : string) (n : nat) :
  accepted (poll_loop rr PAT SLACK_WEBHOOK area n).
Proof.
  induction n as [|n IH]; simpl.
  - apply accepted_ret.
  - apply accepted_bind; [apply poll_cycle_accepted | intros _; exact IH].
Qed.

Lemma poll_loop_shape (area : string) (n : nat) : ∀ st : state World,
  ∃ blocks,
    length blocks = n
    ∧ Forall (Forall not_query) blocks
    ∧ trace (poll_loop rr PAT SLACK_WEBHOOK area n st).2 = trace st ++ turns blocks.
Proof.
  induction n as [|n IH]; intros st; simpl.
  - exists []. simpl. by rewrite app_nil_r.
  - unfold bind. pose proof (poll_cycle_returns area st) as Hc.
    destruct (poll_cycle_shape area st) as (evs & T & F).
    destruct (poll_cycle rr PAT SLACK_WEBHOOK area st) as [r st1].
    simpl in Hc, T. subst r.
    destruct (IH st1) as (blocks & Hlen & Hall & Hloop).
    exists (evs :: blocks). split; [simpl; by rewrite Hlen|].
    split; [by constructor|].
    rewrite Hloop, T, <- app_assoc. reflexivity.
Qed.

Lemma main_accepted (n : nat) : accepted (main rr PAT SLACK_WEBHOOK n).
Proof.
  unfold main.
  apply accepted_bind;
    [apply accepted_tracked, get_board_id_by_name_tracked, plain_neutral|].
  intros [board_id resolved_board_name].
  apply accepted_bind;
    [apply accepted_tracked, get_column_id_by_name_tracked, plain_neutral|].
  intros [column_id resolved_col_name].
  do 2 (apply accepted_bind;
          [apply accepted_tracked; by apply tracked_emit | intros _]).
  apply accepted_bind;
    [apply accepted_tracked, get_team_area_predicate_tracked, plain_neutral|].
  intros area.
  apply accepted_bind; [apply accepted_tracked; by apply tracked_emit | intros _].
  apply poll_loop_accepted.
Qed.

End Loop.

(** ** The dedup discipline *)

Lemma notified_keys_elem (evs : list event) (wid : json) (text : string)
    (k : pykey) :
  EvNotify wid text ∈ evs → py_hashable wid = Some k → k ∈ notified_keys evs.
Proof.
  intros Hin Hk. induction evs as [|ev evs IH]; [by apply elem_of_nil in Hin|].
  apply elem_of_cons in Hin as [<- | Hin]; simpl.
  - rewrite Hk. apply elem_of_cons. by left.
  - destruct ev; try by apply IH.
    destruct (py_hashable wid0); [apply elem_of_cons; right|]; by apply IH.
Qed.

Lemma notified_keys_app (evs1 evs2 : list event) :
  notified_keys (evs1 ++ evs2) = notified_keys evs1 ++ notified_keys evs2.
Proof.
  induction evs1 as [|ev evs1 IH]; simpl; [done|].
  destruct ev; try done. destruct (py_hashable wid); simpl; by rewrite IH.
Qed.

(** What the monitor's verdict on the events of a computation says in
    plain terms, from a start with no pending key. *)
Lemma accepted_discipline {World A : Type} (m : M World A) (st : state World) :
  accepted m →
  ∃ evs, trace (m st).2 = trace st ++ evs
    ∧ (∀ wid text k, EvNotify wid text ∈ evs → py_hashable wid = Some k →
                     (k ∉ seen_ids st) ∧ k ∈ seen_ids (m st).2)
    ∧ (∀ pre wid text post, evs = pre ++ EvNotify wid text :: post →
         ∃ k, py_hashable wid = Some k ∧ EvSeenAdd k ∈ pre)
    ∧ NoDup (notified_keys evs)
    ∧ seen_ids st ⊆ seen_ids (m st).2.
Proof.
  intros Hm. destruct (m st) as [r st'] eqn:H.
  destruct (Hm _ _ _ H) as (evs & T & R). destruct (R None) as [p' Hrun].
  exists evs. simpl. split; [done|].
  assert (pending_seen (seen_ids st, None)) as Hp by (by intros k).
  destruct (monitor_run_notified _ _ _ Hp Hrun) as [Hnd Hin].
  split; [|split; [|split; [done|]]].
  - intros wid text k Hev Hk.
    destruct (Hin k (notified_keys_elem _ _ _ _ Hev Hk)) as [| []]; done.
  - intros pre wid text post Hsplit.
    destruct (monitor_run_add_first _ _ _ _ _ _ _ Hrun Hsplit)
      as (k & Hk & [Hadd | [? _]]); [|done].
    by exists k.
  - pose proof (monitor_run_seen _ _ _ Hrun) as Hseen. simpl in Hseen.
    rewrite Hseen. set_solver.
Qed.

(** C1.  In a turn of the loop, an identifier that was in [seen_ids] when
    the turn began is not handed to the notifier; whatever is handed to it
    was added to [seen_ids] earlier in the turn, and is in it afterwards; and
    no identifier is handed over twice. *)
Theorem seen_before_notified {World : Type}
    (rr : http_call → World → http_outcome * World) (PAT SLACK_WEBHOOK : string)
    (area : string) (st : state World) :
  let st' := (poll_cycle rr PAT SLACK_WEBHOOK area st).2 in
  ∃ evs, trace st' = trace st ++ evs
    ∧ (∀ wid text k, EvNotify wid text ∈ evs → py_hashable wid = Some k →
                     k ∉ seen_ids st)
    ∧ (∀ pre wid text post, evs = pre ++ EvNotify wid text :: post →
         ∃ k, py_hashable wid = Some k ∧ EvSeenAdd k ∈ pre ∧ k ∈ seen_ids st')
    ∧ NoDup (notified_keys evs).
Proof.
  intros st'.
  destruct (accepted_discipline _ st (poll_cycle_accepted rr PAT SLACK_WEBHOOK area))
    as (evs & T & Hnew & Hfirst & Hnd & _).
  exists evs. split; [done|]. split; [|split; [|done]].
  - intros wid text k Hev Hk. by destruct (Hnew _ _ _ Hev Hk).
  - intros pre wid text post ->.
    destruct (Hfirst _ _ _ _ eq_refl) as (k & Hk & Hadd).
    exists k. split; [done|]. split; [done|].
    apply (Hnew wid text k); [|done].
    apply elem_of_app. right. apply elem_of_cons. by left.
Qed.

Lemma for_each_seen {World : Type}
    (rr : http_call → World → http_outcome * World) (PAT SLACK_WEBHOOK : string)
    (xs : list json) (st : state World) :
  (∀ x, x ∈ xs → ∃ wid k, py_getitem x "id" = Ok wid
                          ∧ py_hashable wid = Some k
                          ∧ k ∈ seen_ids st) →
  for_each (loop_item rr PAT SLACK_WEBHOOK) xs st = (Ok tt, st).
Proof.
  induction xs as [|x xs IH]; intros Hall; simpl; [done|].
  destruct (Hall x) as (wid & k & Hwid & Hk & Hin);
    [apply elem_of_cons; by left|].
  unfold bind. rewrite (loop_item_seen rr PAT SLACK_WEBHOOK _ _ _ _ Hwid Hk Hin).
  apply IH. intros y Hy. apply Hall, elem_of_cons. by right.
Qed.

(** C4.  Over the life of the process no identifier is handed to the
    notifier twice; over any number of consecutive turns from any state, no
    identifier is notified twice and none that was seen at the start; a pass
    over a list of items that went through makes every later pass over the
    same list a no-op.  With 101 seen, a query answering [101, 102] makes the
    turn fetch and notify 102 only and leaves {101, 102} seen; the next turn,
    on the same answer, queries and sleeps. *)
Theorem at_most_one_notification :
  (∀ (World : Type) (rr : http_call → World → http_outcome * World)
     (PAT SLACK_WEBHOOK : string) (n : nat) (w : World),
     NoDup (notified_keys (trace (main rr PAT SLACK_WEBHOOK n (initial w)).2)))
  ∧ (∀ (World : Type) (rr : http_call → World → http_outcome * World)
       (PAT SLACK_WEBHOOK area : string) (n : nat) (st : state World),
       ∃ evs, trace (poll_loop rr PAT SLACK_WEBHOOK area n st).2 = trace st ++ evs
              ∧ NoDup (notified_keys evs)
              ∧ ∀ k, k ∈ notified_keys evs → k ∉ seen_ids st)
  ∧ (∀ (World : Type) (rr : http_call → World → http_outcome * World)
       (PAT SLACK_WEBHOOK : string) (its : list json) (st st' later : state World),
       for_each (loop_item rr PAT SLACK_WEBHOOK) its st = (Ok tt, st') →
       seen_ids st' ⊆ seen_ids later →
       for_each (loop_item rr PAT SLACK_WEBHOOK) its later = (Ok tt, later))
  ∧ (let st1 := (poll_cycle scripted "pat" demo_hook demo_area demo_state).2 in
     let st2 := (poll_cycle scripted "pat" demo_hook demo_area st1).2 in
     trace st1 = [EvQuery; EvHttp (wiql_call "pat" demo_area);
                  EvSeenAdd (KInt 102);
                  EvFetch (JNum 102); EvHttp (fetch_call "pat" (JNum 102));
                  EvNotify (JNum 102) demo_text;
                  EvHttp (slack_call demo_hook demo_text);
                  EvSleep POLL_INTERVAL]
     ∧ seen_ids st1 = {[KInt 101; KInt 102]}
     ∧ trace st2 = trace st1 ++ [EvQuery; EvHttp (wiql_call "pat" demo_area);
                                 EvSleep POLL_INTERVAL]
     ∧ seen_ids st2 = {[KInt 101; KInt 102]}).
Proof.
  split; [|split; [|split]].
  - intros World rr PAT SLACK_WEBHOOK n w.
    destruct (accepted_discipline _ (initial w) (main_accepted rr PAT SLACK_WEBHOOK n))
      as (evs & T & _ & _ & Hnd & _).
    by rewrite T.
  - intros World rr PAT SLACK_WEBHOOK area n st.
    destruct (accepted_discipline _ st
                (poll_loop_accepted rr PAT SLACK_WEBHOOK area n))
      as (evs & T & Hnew & _ & Hnd & _).
    exists evs. split; [done|]. split; [done|].
    intros k Hk.
    assert (∃ wid text, EvNotify wid text ∈ evs ∧ py_hashable wid = Some k)
      as (wid & text & Hev & Hwid).
    { clear -Hk. induction evs as [|ev evs IH]; [by apply elem_of_nil in Hk|].
      simpl in Hk.
      assert (k ∈ notified_keys evs →
              ∃ wid text, EvNotify wid text ∈ ev :: evs ∧ py_hashable wid = Some k)
        as Hrest.
      { intros H. destruct (IH H) as (wid & text & Hin & Hwid).
        exists wid, text. split; [|done]. apply elem_of_cons. by right. }
      destruct ev; try by apply Hrest.
      destruct (py_hashable wid) as [k'|] eqn:Hk'; [|by apply Hrest].
      apply elem_of_cons in Hk as [-> | Hk]; [|by apply Hrest].
      exists wid, text. split; [|done]. apply elem_of_cons. by left. }
    by destruct (Hnew _ _ _ Hev Hwid).
  - intros World rr PAT SLACK_WEBHOOK its st st' later Hpass Hsub.
    destruct (for_each_loop_item_done rr PAT SLACK_WEBHOOK _ _ _ Hpass) as [_ Hall].
    apply for_each_seen. intros x Hx.
    destruct (Hall x Hx) as (wid & k & Hwid & Hk & Hin).
    exists wid, k. split; [done|]. split; [done|]. by apply Hsub.
  - vm_compute. repeat split; reflexivity.
Qed.

Lemma at_most_one_notification_witness :
  let pass := for_each (loop_item scripted "pat" demo_hook)
                [JObj [("id", JNum 101)]; JObj [("id", JNum 102)]] in
  let st : state script :=
    mkState [answer_json (item_details 101 "Add export" demo_url);
             answer 200 "ok" None;
             answer_json (item_details 102 "Fix login" demo_url);
             answer 200 "ok" None]
            ∅ [] in
  pass (pass st).2 = (Ok tt, (pass st).2).
Proof.
  intros pass st.
  apply (proj1 (proj2 (proj2 at_most_one_notification))
           script scripted "pat" demo_hook _ st (pass st).2 (pass st).2).
  - vm_compute. reflexivity.
  - reflexivity.
Defined.

Lemma seen_before_notified_witness :
  let st1 := (poll_cycle scripted "pat" demo_hook demo_area demo_state).2 in
  ∃ k, py_hashable (JNum 102) = Some k
       ∧ EvSeenAdd k ∈ [EvQuery; EvHttp (wiql_call "pat" demo_area);
                        EvSeenAdd (KInt 102);
                        EvFetch (JNum 102); EvHttp (fetch_call "pat" (JNum 102))]
       ∧ k ∈ seen_ids st1.
Proof.
  intros st1.
  destruct (seen_before_notified scripted "pat" demo_hook demo_area demo_state)
    as (evs & T & _ & Hfirst & _).
  apply (Hfirst _ (JNum 102) demo_text
           [EvHttp (slack_call demo_hook demo_text); EvSleep POLL_INTERVAL]).
  simpl in T. rewrite <- T. vm_compute. reflexivity.
Defined.

(** ** Errors inside the loop *)

Lemma for_each_app {World A : Type} (body : A → M World unit) (xs ys : list A) :
  ∀ st : state World,
  for_each body (xs ++ ys) st =
  match for_each body xs st with
  | (Ok _, st') => for_each body ys st'
  | (Raise e, st') => (Raise e, st')
  end.
Proof.
  induction xs as [|x xs IH]; intros st; simpl; [done|].
  unfold bind. destruct (body x st) as [[[]|e] st1]; [apply IH | done].
Qed.

(** C5.  A turn of the loop returns whatever happens in it, and so do any
    number of turns: no error leaves the loop.  When the query raises, the
    turn logs the error and sleeps, and [seen_ids] is as before.  When the
    handling of an item raises, a failed fetch for one, the turn logs the
    error and sleeps without touching the items after it: the keys then in
    [seen_ids] are those seen before and those of the items up to the failing
    one.  An item left out is taken up by the turn that finds it next:
    recorded, then fetched. *)
Theorem errors_end_the_turn {World : Type}
    (rr : http_call → World → http_outcome * World) (PAT SLACK_WEBHOOK : string)
    (area : string) :
  (∀ st, (poll_cycle rr PAT SLACK_WEBHOOK area st).1 = Ok tt)
  ∧ (∀ n st, (poll_loop rr PAT SLACK_WEBHOOK area n st).1 = Ok tt)
  ∧ (∀ st st1 e,
       query_items_in_board_column rr PAT AZURE_PROJ COLUMN_NAME area st
         = (Raise e, st1) →
       poll_cycle rr PAT SLACK_WEBHOOK area st
         = (Ok tt, mkState (world st1) (seen_ids st)
                           (trace st1 ++ [EvPrint (LogError e);
                                          EvSleep POLL_INTERVAL])))
  ∧ (∀ st st1 st2 st3 items pre itm rest e,
       query_items_in_board_column rr PAT AZURE_PROJ COLUMN_NAME area st
         = (Ok items, st1) →
       py_iter items = Ok (pre ++ itm :: rest) →
       for_each (loop_item rr PAT SLACK_WEBHOOK) pre st1 = (Ok tt, st2) →
       loop_item rr PAT SLACK_WEBHOOK itm st2 = (Raise e, st3) →
       poll_cycle rr PAT SLACK_WEBHOOK area st
         = (Ok tt, mkState (world st3) (seen_ids st3)
                           (trace st3 ++ [EvPrint (LogError e);
                                          EvSleep POLL_INTERVAL]))
       ∧ ∀ k, k ∈ seen_ids st3 →
              k ∈ seen_ids st ∨ Some k ∈ map item_key (pre ++ [itm]))
  ∧ (∀ st itm wid k,
       py_getitem itm "id" = Ok wid →
       py_hashable wid = Some k →
       k ∉ seen_ids st →
       ∃ evs, trace (loop_item rr PAT SLACK_WEBHOOK itm st).2
              = trace st ++ EvSeenAdd k :: EvFetch wid :: evs).
Proof.
  split; [apply poll_cycle_returns|].
  split; [intros n st; apply poll_loop_returns|].
  split; [|split].
  - intros st st1 e Hq. rewrite poll_cycle_unfold.
    unfold poll_try, bind. rewrite Hq.
    by destruct (query_shape _ _ _ _ _ _ _ _ Hq) as [-> _].
  - intros st st1 st2 st3 items pre itm rest e Hq Hiter Hpre Hitm. split.
    + rewrite poll_cycle_unfold. unfold poll_try, bind at 1 2, lift.
      rewrite Hq, Hiter, for_each_app, Hpre. simpl. unfold bind.
      by rewrite Hitm.
    + intros k Hk.
      destruct (query_shape _ _ _ _ _ _ _ _ Hq) as [Hsame _].
      assert (for_each (loop_item rr PAT SLACK_WEBHOOK) (pre ++ [itm]) st1
              = (Raise e, st3)) as Hrun.
      { rewrite for_each_app, Hpre. simpl. unfold bind. by rewrite Hitm. }
      rewrite <- Hsame.
      exact (for_each_loop_item_seen rr PAT SLACK_WEBHOOK _ _ _ _ Hrun k Hk).
  - intros st itm wid k. apply loop_item_unseen.
Qed.

Lemma errors_end_the_turn_witness :
  let st1 := (poll_cycle scripted "pat" demo_hook demo_area demo_state_refused).2 in
  let st2 := (poll_cycle scripted "pat" demo_hook demo_area st1).2 in
  (∀ k, k ∈ seen_ids st1 →
        k ∈ (∅ : gset pykey)
        ∨ Some k ∈ map item_key [JObj [("id", JNum 101)]; JObj [("id", JNum 102)]])
  ∧ trace st1 = [EvQuery; EvHttp (wiql_call "pat" demo_area);
                 EvSeenAdd (KInt 101);
                 EvFetch (JNum 101); EvHttp (fetch_call "pat" (JNum 101));
                 EvNotify (JNum 101)
                   (ticket_message (JStr demo_url) (JNum 101) (JStr "Add export"));
                 EvHttp (slack_call demo_hook
                   (ticket_message (JStr demo_url) (JNum 101) (JStr "Add export")));
                 EvSeenAdd (KInt 102);
                 EvFetch (JNum 102); EvHttp (fetch_call "pat" (JNum 102));
                 EvPrint (LogError (HTTPError demo_refused));
                 EvSleep POLL_INTERVAL]
  ∧ trace st2 = trace st1 ++
                [EvQuery; EvHttp (wiql_call "pat" demo_area);
                 EvSeenAdd (KInt 103);
                 EvFetch (JNum 103); EvHttp (fetch_call "pat" (JNum 103));
                 EvNotify (JNum 103)
                   (ticket_message (JStr demo_url) (JNum 103) (JStr "Fix logout"));
                 EvHttp (slack_call demo_hook
                   (ticket_message (JStr demo_url) (JNum 103) (JStr "Fix logout")));
                 EvSleep POLL_INTERVAL].
Proof.
  intros st1 st2. split; [|split; vm_compute; reflexivity].
  pose (run := query_items_in_board_column scripted "pat" AZURE_PROJ COLUMN_NAME
                 demo_area demo_state_refused).
  pose (first := loop_item scripted "pat" demo_hook (JObj [("id", JNum 101)]) run.2).
  pose (second := loop_item scripted "pat" demo_hook (JObj [("id", JNum 102)])
                    first.2).
  destruct (proj1 (proj2 (proj2 (proj2
              (errors_end_the_turn scripted "pat" demo_hook demo_area))))
              demo_state_refused run.2 first.2 second.2
              (JList [JObj [("id", JNum 101)]; JObj [("id", JNum 102)];
                      JObj [("id", JNum 103)]])
              [JObj [("id", JNum 101)]] (JObj [("id", JNum 102)])
              [JObj [("id", JNum 103)]] (HTTPError demo_refused))
    as [Hcycle Hseen]; try (vm_compute; reflexivity).
  intros k Hk. apply Hseen.
  unfold st1 in Hk. rewrite Hcycle in Hk. exact Hk.
Defined.

(** ** Delivery failures *)

Lemma plain_no_notify (evs : list event) (wid : json) (text : string) :
  Forall plain evs → EvNotify wid text ∉ evs.
Proof.
  intros F Hin. rewrite Forall_forall in F. exact (F _ Hin).
Qed.

(** C7.  [post_to_slack] returns whatever the webhook does; when the post
    raises, a timeout for one, it logs the warning and returns.  So a turn of
    the item loop that reached its notification returns, with the key of the
    item in [seen_ids]; a later turn passes over an item whose key is seen,
    and a turn of the loop never shrinks [seen_ids].  With a webhook that
    times out, the turn notifying 102 ends with the warning and the sleep,
    102 stays seen, and the next turn queries and sleeps. *)
Theorem delivery_failure_is_contained {World : Type}
    (rr : http_call → World → http_outcome * World) (PAT SLACK_WEBHOOK : string) :
  (∀ text st, (post_to_slack rr SLACK_WEBHOOK text st).1 = Ok tt)
  ∧ (∀ text st e w,
       rr (slack_call SLACK_WEBHOOK text) (world st) = (Failed e, w) →
       post_to_slack rr SLACK_WEBHOOK text st
       = (Ok tt, mkState w (seen_ids st)
                         (trace st ++ [EvHttp (slack_call SLACK_WEBHOOK text);
                                       EvPrint (LogWarn e)])))
  ∧ (∀ itm st r st' evs wid text,
       loop_item rr PAT SLACK_WEBHOOK itm st = (r, st') →
       trace st' = trace st ++ evs →
       EvNotify wid text ∈ evs →
       r = Ok tt ∧ ∃ k, py_hashable wid = Some k ∧ k ∈ seen_ids st')
  ∧ (∀ itm wid k st,
       py_getitem itm "id" = Ok wid →
       py_hashable wid = Some k →
       k ∈ seen_ids st →
       loop_item rr PAT SLACK_WEBHOOK itm st = (Ok tt, st))
  ∧ (∀ area st, seen_ids st ⊆ seen_ids (poll_cycle rr PAT SLACK_WEBHOOK area st).2)
  ∧ (let turn1 := poll_cycle scripted "pat" demo_hook demo_area demo_state_timeout in
     let turn2 := poll_cycle scripted "pat" demo_hook demo_area turn1.2 in
     turn1.1 = Ok tt
     ∧ trace turn1.2 = [EvQuery; EvHttp (wiql_call "pat" demo_area);
                        EvSeenAdd (KInt 102);
                        EvFetch (JNum 102); EvHttp (fetch_call "pat" (JNum 102));
                        EvNotify (JNum 102) demo_text;
                        EvHttp (slack_call demo_hook demo_text);
                        EvPrint (LogWarn demo_timeout);
                        EvSleep POLL_INTERVAL]
     ∧ seen_ids turn1.2 = {[KInt 101; KInt 102]}
     ∧ turn2.1 = Ok tt
     ∧ trace turn2.2 = trace turn1.2 ++ [EvQuery; EvHttp (wiql_call "pat" demo_area);
                                         EvSleep POLL_INTERVAL]
     ∧ seen_ids turn2.2 = {[KInt 101; KInt 102]}).
Proof.
  split; [|split; [|split; [|split; [|split]]]].
  - intros text st.
    unfold post_to_slack, try_except, bind, http, print, emit, ret.
    by destruct (rr _ (world st)) as [[resp|e] w].
  - intros text st e w Hfail.
    unfold post_to_slack, try_except, bind, http, print, emit, ret.
    fold (slack_call SLACK_WEBHOOK text). rewrite Hfail. simpl.
    by rewrite <- app_assoc.
  - intros itm st r st' evs wid text Hrun T Hev.
    destruct (loop_item_spec _ _ _ _ _ _ _ Hrun)
      as [-> | (wid' & k & evs1 & tail & _ & Hk & _ & S & T' & F & Htail)].
    + rewrite <- (app_nil_r (trace st)) in T at 1.
      apply app_inv_head in T as <-. by apply elem_of_nil in Hev.
    + rewrite T' in T. apply app_inv_head in T as <-.
      apply elem_of_cons in Hev as [[=] | Hev].
      apply elem_of_app in Hev as [Hev | Hev]; [by apply plain_no_notify in Hev|].
      destruct Htail as [-> | (text' & evs2 & -> & F2 & ->)];
        [by apply elem_of_nil in Hev|].
      apply elem_of_cons in Hev as [[= -> ->] | Hev];
        [|by apply plain_no_notify in Hev].
      split; [done|]. exists k. split; [done|]. rewrite S. set_solver.
  - intros itm wid k st. apply loop_item_seen.
  - intros area st.
    by destruct (accepted_discipline _ st
                   (poll_cycle_accepted rr PAT SLACK_WEBHOOK area))
      as (evs & _ & _ & _ & _ & Hsub).
  - vm_compute. repeat split; reflexivity.
Qed.

Lemma delivery_failure_is_contained_witness :
  let st1 := (seen_add (JNum 102) demo_state_timeout).2 in
  let st := mkState [Failed demo_timeout] (seen_ids st1) (trace st1) in
  post_to_slack scripted demo_hook demo_text st
  = (Ok tt, mkState [] (seen_ids st)
                    (trace st ++ [EvHttp (slack_call demo_hook demo_text);
                                  EvPrint (LogWarn demo_timeout)]))
  ∧ loop_item scripted "pat" demo_hook (JObj [("id", JNum 102)]) st = (Ok tt, st).
Proof.
  intros st1 st.
  destruct (delivery_failure_is_contained scripted "pat" demo_hook)
    as (_ & Hfail & _ & Hseen & _).
  split.
  - apply (Hfail demo_text st demo_timeout []). reflexivity.
  - apply (Hseen _ (JNum 102) (KInt 102) st); [reflexivity | reflexivity |].
    vm_compute. set_solver.
Defined.

(** ** The sleep between queries *)

(** A stretch with no query in it, at the head of a list, ends before the
    first query of the list. *)
Lemma split_before_query (X : list event) : ∀ (Y b c : list event),
  Forall not_query X →
  X ++ Y = b ++ EvQuery :: c →
  ∃ b', b = X ++ b' ∧ Y = b' ++ EvQuery :: c.
Proof.
  induction X as [|x X IH]; intros Y b c F H.
  - by exists b.
  - apply Forall_cons in F as [Hx F].
    destruct b as [|y b]; simpl in H.
    + injection H as -> _. by destruct Hx.
    + injection H as <- H. destruct (IH _ _ _ F H) as (b' & -> & ->).
      by exists b'.
Qed.

Lemma turns_sleep_between (blocks : list (list event)) :
  Forall (Forall not_query) blocks →
  ∀ a b c, turns blocks = a ++ EvQuery :: b ++ EvQuery :: c →
           EvSleep POLL_INTERVAL ∈ b.
Proof.
  induction 1 as [|b0 blocks Hb0 _ IH]; intros a b c H; simpl in H.
  - by destruct a.
  - assert (Forall not_query (b0 ++ [EvSleep POLL_INTERVAL])) as HX.
    { apply Forall_app. split; [done|]. by constructor. }
    destruct a as [|e a]; simpl in H; injection H as H.
    + destruct (split_before_query _ _ _ _ HX H) as (b' & -> & _).
      apply elem_of_app. left. apply elem_of_app. right.
      apply elem_of_cons. by left.
    + subst e. destruct (split_before_query _ _ _ _ HX H0) as (a' & -> & Hrest).
      exact (IH a' b c Hrest).
Qed.

(** C10.  Every turn of the loop opens with its one query and closes with
    the sleep of [POLL_INTERVAL] seconds, whether or not the guarded block
    raised; [n] turns leave [n] such stretches; so between any two queries
    of a run there is a sleep of [POLL_INTERVAL] seconds. *)
Theorem sleep_closes_every_turn {World : Type}
    (rr : http_call → World → http_outcome * World) (PAT SLACK_WEBHOOK : string)
    (area : string) :
  (∀ st, ∃ evs,
       trace (poll_cycle rr PAT SLACK_WEBHOOK area st).2
       = trace st ++ EvQuery :: evs ++ [EvSleep POLL_INTERVAL]
       ∧ Forall not_query evs)
  ∧ (∀ n st, ∃ blocks,
       length blocks = n
       ∧ Forall (Forall not_query) blocks
       ∧ trace (poll_loop rr PAT SLACK_WEBHOOK area n st).2
         = trace st ++ turns blocks)
  ∧ (∀ n st a b c,
       trace (poll_loop rr PAT SLACK_WEBHOOK area n st).2
       = trace st ++ a ++ EvQuery :: b ++ EvQuery :: c →
       EvSleep POLL_INTERVAL ∈ b).
Proof.
  split; [apply poll_cycle_shape|]. split; [intros n st; apply poll_loop_shape|].
  intros n st a b c H.
  destruct (poll_loop_shape rr PAT SLACK_WEBHOOK area n st)
    as (blocks & _ & Hall & T).
  rewrite T in H. apply app_inv_head in H.
  exact (turns_sleep_between _ Hall _ _ _ H).
Qed.

Lemma sleep_closes_every_turn_witness :
  EvSleep POLL_INTERVAL
  ∈ [EvHttp (wiql_call "pat" demo_area);
     EvSeenAdd (KInt 101);
     EvFetch (JNum 101); EvHttp (fetch_call "pat" (JNum 101));
     EvNotify (JNum 101)
       (ticket_message (JStr demo_url) (JNum 101) (JStr "Add export"));
     EvHttp (slack_call demo_hook
       (ticket_message (JStr demo_url) (JNum 101) (JStr "Add export")));
     EvSeenAdd (KInt 102);
     EvFetch (JNum 102); EvHttp (fetch_call "pat" (JNum 102));
     EvPrint (LogError (HTTPError demo_refused));
     EvSleep POLL_INTERVAL].
Proof.
  apply (proj2 (proj2 (sleep_closes_every_turn scripted "pat" demo_hook demo_area))
           2%nat demo_state_refused [] _
           [EvHttp (wiql_call "pat" demo_area);
            EvSeenAdd (KInt 103);
            EvFetch (JNum 103); EvHttp (fetch_call "pat" (JNum 103));
            EvNotify (JNum 103)
              (ticket_message (JStr demo_url) (JNum 103) (JStr "Fix logout"));
            EvHttp (slack_call demo_hook
              (ticket_message (JStr demo_url) (JNum 103) (JStr "Fix logout")));
            EvSleep POLL_INTERVAL]).
  vm_compute. reflexivity.
Defined.

(** * Further properties of the script *)

(** ** The transport client, beyond its three outcomes *)

Lemma lstrip_slash_slashes (n : nat) (path : string) :
  lstrip_slash (slashes n +:+ path) = lstrip_slash path.
Proof. induction n as [|n IH]; simpl; [done | exact IH]. Qed.

Lemma lstrip_slash_head (path rest : string) :
  lstrip_slash path ≠ String "/" rest.
Proof.
  induction path as [|c path IH]; simpl; [done|].
  destruct (Ascii.eqb_spec c "/"); [exact IH|]. by intros [= -> _].
Qed.

Section TransportMore.

Context {World : Type}.
Variable rr : http_call → World → http_outcome * World.
Variable PAT : string.

(** X1.  Leading slashes of the path do not count: [_request] behaves the
    same with any number of them put in front, and the part of the URL after
    the organization never begins with a second slash. *)
Theorem request_ignores_leading_slashes (method path : string)
    (params : option (list (string * string))) (json_arg : option json) :
  (∀ n st, _request rr PAT method (slashes n +:+ path) params json_arg st
           = _request rr PAT method path params json_arg st)
  ∧ (∀ n, request_call PAT method (slashes n +:+ path) params json_arg
          = request_call PAT method path params json_arg)
  ∧ call_url (request_call PAT method path params json_arg)
    = "https://dev.azure.com/WFRD-RDE-DWC-Software/" +:+ lstrip_slash path
  ∧ ∀ rest, lstrip_slash path ≠ String "/" rest.
Proof.
  split; [|split; [|split]].
  - intros n st. unfold _request. by rewrite lstrip_slash_slashes.
  - intros n. unfold request_call. by rewrite lstrip_slash_slashes.
  - reflexivity.
  - apply lstrip_slash_head.
Qed.

(** The effect of one [_request] on the state, whatever its outcome. *)
Lemma request_one_call (method path : string)
    (params : option (list (string * string))) (json_arg : option json)
    (st : state World) :
  let c := request_call PAT method path params json_arg in
  let after := (_request rr PAT method path params json_arg st).2 in
  trace after = trace st ++ [EvHttp c]
  ∧ world after = (rr c (world st)).2
  ∧ seen_ids after = seen_ids st.
Proof.
  cbv zeta. rewrite request_unfold. cbv zeta.
  destruct (rr _ (world st)) as [[resp|e] w]; simpl; [|done].
  destruct (response_ok resp); [|done].
  destruct (String.eqb (content resp) ""); [done|].
  by destruct (resp_json resp).
Qed.

(** X2.  One invocation of [_request] is one network call, whatever comes
    of it: the trace grows by that call alone, the world moves by that call
    alone, and [seen_ids] is untouched.  There is no retry. *)
Theorem request_sends_one_call (method path : string)
    (params : option (list (string * string))) (json_arg : option json)
    (st : state World) :
  let c := request_call PAT method path params json_arg in
  let after := (_request rr PAT method path params json_arg st).2 in
  trace after = trace st ++ [EvHttp c]
  ∧ world after = (rr c (world st)).2
  ∧ seen_ids after = seen_ids st.
Proof. exact (request_one_call method path params json_arg st). Qed.

(** X3.  What [_request] raises apart from the HTTP error: an exception of
    [requests.request] itself, a timeout or a refused connection, leaves as
    it is; and a successful answer whose body is there but is not JSON makes
    the call raise the decoding error. *)
Theorem request_other_failures (method path : string)
    (params : option (list (string * string))) (json_arg : option json)
    (st : state World) (w : World) :
  let c := request_call PAT method path params json_arg in
  (∀ e, rr c (world st) = (Failed e, w) →
        _request rr PAT method path params json_arg st
        = (Raise e, after_call st c w))
  ∧ (∀ resp, rr c (world st) = (Responded resp, w) →
             response_ok resp = true →
             content resp ≠ "" →
             resp_json resp = None →
             _request rr PAT method path params json_arg st
             = (Raise JSONDecodeError, after_call st c w)).
Proof.
  cbv zeta. split.
  - intros e H. rewrite request_unfold. cbv zeta. by rewrite H.
  - intros resp H Hok Hbody Hjson. rewrite request_unfold. cbv zeta.
    rewrite H, Hok, Hjson.
    by destruct (String.eqb_spec (content resp) "").
Qed.

End TransportMore.

Lemma request_other_failures_witness :
  let call := _request scripted "pat" "GET" "OmniStack/_apis/wit/workitems/7"
                       (Some [("api-version", "6.0")]) None in
  let refused := TransportError "Connection refused" in
  fst (call (initial [Failed refused])) = Raise refused
  ∧ fst (call (initial [answer 203 "<html>Sign in</html>" None]))
    = Raise JSONDecodeError.
Proof.
  intros call refused. split.
  - unfold call.
    rewrite (proj1 (request_other_failures scripted "pat" "GET"
                      "OmniStack/_apis/wit/workitems/7"
                      (Some [("api-version", "6.0")]) None
                      (initial [Failed refused]) []) refused eq_refl).
    reflexivity.
  - unfold call.
    rewrite (proj2 (request_other_failures scripted "pat" "GET"
                      "OmniStack/_apis/wit/workitems/7"
                      (Some [("api-version", "6.0")]) None
                      (initial [answer 203 "<html>Sign in</html>" None]) [])
                   (mkResponse 203 "<html>Sign in</html>" None)
                   eq_refl eq_refl ltac:(discriminate) eq_refl).
    reflexivity.
Defined.

(** ** Startup lookups, end to end *)

Section Startup.

Context {World : Type}.
Variable rr : http_call → World → http_outcome * World.
Variable PAT : string.

Lemma request_answered (method path : string)
    (params : option (list (string * string))) (json_arg : option json)
    (st : state World) (resp : response) (w : World) :
  rr (request_call PAT method path params json_arg) (world st) = (Responded resp, w) →
  _request rr PAT method path params json_arg st
  = (request_result resp,
     after_call st (request_call PAT method path params json_arg) w).
Proof.
  intros H. rewrite request_unfold. cbv zeta. rewrite H. unfold request_result.
  destruct (response_ok resp); [|done].
  destruct (String.eqb (content resp) ""); [done|].
  by destruct (resp_json resp).
Qed.

(** Board resolution, from the response to the listing call on. *)
Lemma board_lookup_answered (project team name : string) (st : state World)
    (resp : response) (w : World) (data : json) :
  rr (boards_call PAT project team) (world st) = (Responded resp, w) →
  request_result resp = Ok data →
  get_board_id_by_name rr PAT project team name st
  = (rbind (listed_value data) (resolve_by_name name (board_not_found name team)),
     after_call st (boards_call PAT project team) w).
Proof.
  intros H Hdata.
  unfold get_board_id_by_name, get_team_boards, azure_get, bind at 1 2.
  rewrite (request_answered _ _ _ _ _ _ _ H), Hdata. unfold lift, listed_value.
  by destruct (py_get data "value" (JList [])).
Qed.

Lemma column_lookup_answered (project team : string) (board_id : json)
    (name : string) (st : state World) (resp : response) (w : World) (data : json) :
  rr (columns_call PAT project team board_id) (world st) = (Responded resp, w) →
  request_result resp = Ok data →
  get_column_id_by_name rr PAT project team board_id name st
  = (rbind (listed_value data)
           (resolve_by_name name (column_not_found name board_id)),
     after_call st (columns_call PAT project team board_id) w).
Proof.
  intros H Hdata.
  unfold get_column_id_by_name, get_board_columns, azure_get, bind at 1 2.
  rewrite (request_answered _ _ _ _ _ _ _ H), Hdata. unfold lift, listed_value.
  by destruct (py_get data "value" (JList [])).
Qed.

(** X4.  A listing answer with nothing to list, an empty body, an object
    without ["value"], or an empty ["value"], makes the resolver fail with
    the not-found error, the names on offer being []. *)
Theorem lookup_of_empty_listing (project team name : string) (board_id : json)
    (st : state World) (resp : response) (w : World) :
  response_ok resp = true →
  (content resp = ""
   ∨ ∃ f, content resp ≠ "" ∧ resp_json resp = Some (JObj f)
          ∧ (dict_get "value" f = None ∨ dict_get "value" f = Some (JList []))) →
  (rr (boards_call PAT project team) (world st) = (Responded resp, w) →
   get_board_id_by_name rr PAT project team name st
   = (Raise (RuntimeError ("Board '" +:+ name +:+ "' not found for team '"
                           +:+ team +:+ "'. Available: []")),
      after_call st (boards_call PAT project team) w))
  ∧ (rr (columns_call PAT project team board_id) (world st) = (Responded resp, w) →
     get_column_id_by_name rr PAT project team board_id name st
     = (Raise (RuntimeError ("Column '" +:+ name +:+ "' not found on board id "
                             +:+ py_str board_id +:+ ". Available: []")),
        after_call st (columns_call PAT project team board_id) w)).
Proof.
  intros Hok Hempty.
  assert (∃ data, request_result resp = Ok data
                  ∧ listed_value data = Ok (JList [])) as (data & Hdata & Hlist).
  { unfold request_result. rewrite Hok.
    destruct Hempty as [-> | (f & Hbody & -> & Hvalue)].
    - by exists (JObj []).
    - destruct (String.eqb_spec (content resp) ""); [done|].
      exists (JObj f). split; [done|]. unfold listed_value. simpl.
      by destruct Hvalue as [-> | ->]. }
  split; intros H.
  - rewrite (board_lookup_answered _ _ _ _ _ _ _ H Hdata), Hlist. reflexivity.
  - rewrite (column_lookup_answered _ _ _ _ _ _ _ _ H Hdata), Hlist. reflexivity.
Qed.

(** X5.  An entry with the right name and no ["id"] is found and then
    fails the resolver with the key error for 'id': the lookup does not go on
    to a later entry of the same name that has one. *)
Theorem lookup_of_entry_without_id (project team name : string) (board_id : json)
    (st : state World) (resp : response) (w : World) (data : json)
    (pre rest : list json) (f : list (string * json)) :
  request_result resp = Ok data →
  listed_value data = Ok (JList (pre ++ JObj f :: rest)) →
  forallb (other_name name) pre = true →
  dict_get "name" f = Some (JStr name) →
  dict_get "id" f = None →
  (rr (boards_call PAT project team) (world st) = (Responded resp, w) →
   get_board_id_by_name rr PAT project team name st
   = (Raise (KeyError "id"), after_call st (boards_call PAT project team) w))
  ∧ (rr (columns_call PAT project team board_id) (world st) = (Responded resp, w) →
     get_column_id_by_name rr PAT project team board_id name st
     = (Raise (KeyError "id"),
        after_call st (columns_call PAT project team board_id) w)).
Proof.
  intros Hdata Hlist Hpre Hname Hid.
  assert (∀ nf, resolve_by_name name nf (JList (pre ++ JObj f :: rest))
                = Raise (KeyError "id")) as Hres.
  { intros nf. unfold resolve_by_name. simpl.
    rewrite (first_named_passes _ _ _ Hpre). simpl.
    rewrite Hname. simpl. rewrite String.eqb_refl. simpl.
    destruct f as [|kv f]; [discriminate|]. simpl in *. by rewrite Hid. }
  split; intros H.
  - rewrite (board_lookup_answered _ _ _ _ _ _ _ H Hdata), Hlist. simpl.
    by rewrite Hres.
  - rewrite (column_lookup_answered _ _ _ _ _ _ _ _ H Hdata), Hlist. simpl.
    by rewrite Hres.
Qed.

(** X6.  An entry that is not an object, met before any entry of the right
    name, fails the resolver with the attribute error, whether or not the
    right name comes later in the list. *)
Theorem lookup_meets_bad_entry (project team name : string) (board_id : json)
    (st : state World) (resp : response) (w : World) (data : json)
    (pre rest : list json) (v : json) :
  request_result resp = Ok data →
  listed_value data = Ok (JList (pre ++ v :: rest)) →
  forallb (other_name name) pre = true →
  is_object v = false →
  (rr (boards_call PAT project team) (world st) = (Responded resp, w) →
   get_board_id_by_name rr PAT project team name st
   = (Raise AttributeError, after_call st (boards_call PAT project team) w))
  ∧ (rr (columns_call PAT project team board_id) (world st) = (Responded resp, w) →
     get_column_id_by_name rr PAT project team board_id name st
     = (Raise AttributeError,
        after_call st (columns_call PAT project team board_id) w)).
Proof.
  intros Hdata Hlist Hpre Hv.
  assert (∀ nf, resolve_by_name name nf (JList (pre ++ v :: rest))
                = Raise AttributeError) as Hres.
  { intros nf. unfold resolve_by_name. simpl.
    rewrite (first_named_passes _ _ _ Hpre). simpl.
    by destruct v. }
  split; intros H.
  - rewrite (board_lookup_answered _ _ _ _ _ _ _ H Hdata), Hlist. simpl.
    by rewrite Hres.
  - rewrite (column_lookup_answered _ _ _ _ _ _ _ _ H Hdata), Hlist. simpl.
    by rewrite Hres.
Qed.

End Startup.

Lemma lookup_of_empty_listing_witness :
  let st : state script := initial [answer 200 "" None] in
  get_board_id_by_name scripted "pat" "OmniStack" "WASP" "Stories" st
  = (Raise (RuntimeError ("Board '" +:+ "Stories" +:+ "' not found for team '"
                          +:+ "WASP" +:+ "'. Available: []")),
     after_call st (boards_call "pat" "OmniStack" "WASP") []).
Proof.
  intros st.
  pose proof (lookup_of_empty_listing scripted "pat" "OmniStack" "WASP"
                "Stories" JNull st (mkResponse 200 "" None) []) as H.
  specialize (H eq_refl (or_introl eq_refl)).
  destruct H as [H _]. apply H. reflexivity.
Defined.

Lemma lookup_of_entry_without_id_witness :
  let listing := JObj [("value", JList [JObj [("name", JStr "Stories")];
                                        JObj [("name", JStr "Stories");
                                              ("id", JNum 3)]])] in
  let st : state script := initial [answer_json listing] in
  get_board_id_by_name scripted "pat" "OmniStack" "WASP" "Stories" st
  = (Raise (KeyError "id"),
     after_call st (boards_call "pat" "OmniStack" "WASP") []).
Proof.
  intros listing st.
  pose proof (lookup_of_entry_without_id scripted "pat" "OmniStack" "WASP"
                "Stories" JNull st
                (mkResponse 200 (py_repr listing) (Some listing)) [] listing
                [] [JObj [("name", JStr "Stories"); ("id", JNum 3)]]
                [("name", JStr "Stories")]) as H.
  specialize (H eq_refl eq_refl eq_refl eq_refl eq_refl).
  destruct H as [H _]. apply H. reflexivity.
Defined.

Lemma lookup_meets_bad_entry_witness :
  let listing := JObj [("value", JList [JObj [("name", JStr "Epics"); ("id", JNum 1)];
                                        JNull;
                                        JObj [("name", JStr "Stories");
                                              ("id", JNum 3)]])] in
  let st : state script := initial [answer_json listing] in
  get_board_id_by_name scripted "pat" "OmniStack" "WASP" "Stories" st
  = (Raise AttributeError,
     after_call st (boards_call "pat" "OmniStack" "WASP") []).
Proof.
  intros listing st.
  pose proof (lookup_meets_bad_entry scripted "pat" "OmniStack" "WASP"
                "Stories" JNull st
                (mkResponse 200 (py_repr listing) (Some listing)) [] listing
                [JObj [("name", JStr "Epics"); ("id", JNum 1)]]
                [JObj [("name", JStr "Stories"); ("id", JNum 3)]] JNull) as H.
  specialize (H eq_refl eq_refl eq_refl eq_refl).
  destruct H as [H _]. apply H. reflexivity.
Defined.

(** ** The scope predicate builder, at its edges *)

Lemma area_parts_step_truthiness (parts : list string) (v : json) :
  is_object v = true →
  area_parts_step parts v =
    Ok (parts ++ (if usable_path v then [clause_by_truthiness v] else [])).
Proof.
  destruct v as [| | | | |f]; try discriminate. intros _.
  unfold area_parts_step, clause_by_truthiness.
  rewrite usable_path_object. simpl.
  destruct (dict_get "value" f) as [p|]; simpl.
  - destruct (py_truthy p); simpl; [|by rewrite app_nil_r].
    destruct (dict_get "includeChildren" f) as [flag|]; simpl; [|done].
    by destruct (py_truthy flag).
  - by rewrite app_nil_r.
Qed.

Lemma area_parts_loop_truthiness (vs : list json) : ∀ parts : list string,
  forallb is_object vs = true →
  for_acc area_parts_step parts vs =
    Ok (parts ++ map clause_by_truthiness (List.filter usable_path vs)).
Proof.
  induction vs as [|v vs IH]; intros parts Hobj; simpl.
  - by rewrite app_nil_r.
  - apply andb_prop in Hobj as [Hv Hobj].
    rewrite (area_parts_step_truthiness parts v Hv). simpl.
    rewrite (IH _ Hobj). destruct (usable_path v); simpl.
    + by rewrite <- app_assoc.
    + by rewrite app_nil_r.
Qed.

(** X7.  The flag of an entry is judged by its truth value, not by being
    the boolean true: for any list of objects with a usable path among them,
    the predicate has one clause per usable entry, [UNDER] exactly when
    includeChildren is there and truthy.  A flag given as a non-empty string,
    the string "false" included, or as a non-zero number selects [UNDER]. *)
Theorem flag_judged_by_truthiness :
  (∀ (fields : list (string * json)) (vs : list json),
     dict_get "values" fields = Some (JList vs) →
     forallb is_object vs = true →
     existsb usable_path vs = true →
     team_area_predicate_of (JObj fields)
     = Ok ("(" +:+ py_join " OR "
                     (map clause_by_truthiness (List.filter usable_path vs))
               +:+ ")"))
  ∧ (∀ path s, s ≠ "" →
       clause_by_truthiness
         (JObj [("value", path); ("includeChildren", JStr s)])
       = "[System.AreaPath] UNDER '" +:+ py_str path +:+ "'")
  ∧ (∀ path n, n ≠ 0 →
       clause_by_truthiness
         (JObj [("value", path); ("includeChildren", JNum n)])
       = "[System.AreaPath] UNDER '" +:+ py_str path +:+ "'")
  ∧ (∀ path,
       clause_by_truthiness
         (JObj [("value", path); ("includeChildren", JNull)])
       = "[System.AreaPath] = '" +:+ py_str path +:+ "'").
Proof.
  split; [|split; [|split]].
  - intros fields vs Hvalues Hobj Hsome.
    unfold team_area_predicate_of. simpl. rewrite Hvalues.
    destruct vs as [|v vs]; [discriminate|].
    cbn [rbind py_truthy negb py_iter].
    rewrite (area_parts_loop_truthiness (v :: vs) [] Hobj).
    cbn [rbind app].
    pose proof (filter_usable_nonempty _ Hsome) as Hne.
    destruct (List.filter usable_path (v :: vs)); [done|reflexivity].
  - intros path s Hs. unfold clause_by_truthiness. simpl.
    by destruct (String.eqb_spec s "").
  - intros path n Hn. unfold clause_by_truthiness. simpl.
    by destruct (Z.eqb_spec n 0).
  - reflexivity.
Qed.

Lemma flag_judged_by_truthiness_witness :
  let vs := [JObj [("value", JStr "OmniStack\WASP"); ("includeChildren", JStr "false")];
             JObj [("value", JStr "OmniStack\Ops"); ("includeChildren", JNum 0)]] in
  team_area_predicate_of (JObj [("values", JList vs)])
  = Ok ("(" +:+ py_join " OR "
                  (map clause_by_truthiness (List.filter usable_path vs))
            +:+ ")")
  ∧ py_join " OR " (map clause_by_truthiness (List.filter usable_path vs))
    = "[System.AreaPath] UNDER 'OmniStack\WASP' OR [System.AreaPath] = 'OmniStack\Ops'".
Proof.
  intros vs. split; [|reflexivity].
  apply (proj1 flag_judged_by_truthiness [("values", JList vs)] vs); reflexivity.
Defined.

(** X8.  Settings of another shape make the builder raise; there is no
    fallback for them.  An answer that is no object, or an entry that is no
    object, raises the attribute error, and the clauses of the entries
    before it are lost with it; values that hold a true number or [true]
    raise the type error; values given as a non-empty string or a non-empty
    object raise the attribute error. *)
Theorem builder_raises_on_other_shapes :
  (∀ data, is_object data = false →
           team_area_predicate_of data = Raise AttributeError)
  ∧ (∀ (fields : list (string * json)) (pre rest : list json) (v : json),
       dict_get "values" fields = Some (JList (pre ++ v :: rest)) →
       forallb is_object pre = true →
       is_object v = false →
       team_area_predicate_of (JObj fields) = Raise AttributeError)
  ∧ (∀ (fields : list (string * json)) (values : json),
       dict_get "values" fields = Some values →
       py_truthy values = true →
       match values with
       | JNum _ | JBool _ => team_area_predicate_of (JObj fields) = Raise TypeError
       | JStr _ | JObj _ => team_area_predicate_of (JObj fields) = Raise AttributeError
       | _ => True
       end).
Proof.
  split; [|split].
  - intros data Hdata. by destruct data.
  - intros fields pre rest v Hvalues Hpre Hv.
    unfold team_area_predicate_of. simpl. rewrite Hvalues.
    assert (py_truthy (JList (pre ++ v :: rest)) = true) as -> by (by destruct pre).
    cbn [rbind negb py_iter].
    assert (∀ parts, for_acc area_parts_step parts (pre ++ v :: rest)
                     = Raise AttributeError) as ->; [|done].
    clear Hvalues. induction pre as [|x pre IH]; intros parts; simpl.
    + by destruct v.
    + apply andb_prop in Hpre as [Hx Hpre].
      destruct (area_parts_step_total parts x Hx) as [more ->]. simpl.
      by apply IH.
  - intros fields values Hvalues Htruthy.
    unfold team_area_predicate_of. simpl. rewrite Hvalues, Htruthy.
    destruct values as [| b | n | s | l | f]; try done.
    + destruct s as [|c s]; [discriminate|]. reflexivity.
    + destruct f as [|[k x] f]; [discriminate|]. reflexivity.
Qed.

Lemma builder_raises_on_other_shapes_witness :
  team_area_predicate_of
    (JObj [("values", JList [JObj [("value", JStr "OmniStack\WASP")]; JNull])])
  = Raise AttributeError
  ∧ team_area_predicate_of (JObj [("values", JNum 3)]) = Raise TypeError.
Proof.
  destruct builder_raises_on_other_shapes as (_ & Hentry & Hvalues).
  split.
  - apply (Hentry _ [JObj [("value", JStr "OmniStack\WASP")]] [] JNull);
      reflexivity.
  - apply (Hvalues [("values", JNum 3)] (JNum 3)); reflexivity.
Defined.

(** ** The endpoints of the startup and of the notifier *)

Section Endpoints.

Context {World : Type}.
Variable rr : http_call → World → http_outcome * World.
Variables PAT SLACK_WEBHOOK : string.

Lemma area_predicate_answered (project team : string) (st : state World)
    (resp : response) (w : World) :
  rr (team_settings_call PAT project team) (world st) = (Responded resp, w) →
  get_team_area_predicate rr PAT project team st
  = (rbind (request_result resp) team_area_predicate_of,
     after_call st (team_settings_call PAT project team) w).
Proof.
  intros H. unfold get_team_area_predicate, azure_get, bind.
  rewrite (request_answered _ _ _ _ _ _ _ _ _ H). unfold lift.
  by destruct (request_result resp).
Qed.

(** X9.  What the builder makes of the team-settings endpoint.  A successful
    answer with an empty body gives the fallback clause, which names the
    configured project whatever project the caller passed.  An answer with
    an error status gives no fallback: the builder raises the HTTP error. *)
Theorem area_predicate_by_endpoint (project team : string) (st : state World)
    (resp : response) (w : World) :
  rr (team_settings_call PAT project team) (world st) = (Responded resp, w) →
  (response_ok resp = true → content resp = "" →
   get_team_area_predicate rr PAT project team st
   = (Ok "[System.TeamProject] = 'OmniStack'",
      after_call st (team_settings_call PAT project team) w))
  ∧ (response_ok resp = false →
     get_team_area_predicate rr PAT project team st
     = (Raise (HTTPError resp),
        after_call st (team_settings_call PAT project team) w)).
Proof.
  intros H. rewrite (area_predicate_answered _ _ _ _ _ H).
  unfold request_result. split.
  - by intros -> ->.
  - by intros ->.
Qed.

(** X10.  [post_to_slack] looks at no response: whatever status the webhook
    answers with, an error status included, the call returns with nothing
    logged beyond the post itself. *)
Theorem webhook_status_is_ignored (text : string) (st : state World)
    (resp : response) (w : World) :
  rr (slack_call SLACK_WEBHOOK text) (world st) = (Responded resp, w) →
  post_to_slack rr SLACK_WEBHOOK text st
  = (Ok tt, after_call st (slack_call SLACK_WEBHOOK text) w).
Proof.
  intros H. unfold post_to_slack, try_except, bind, http, ret.
  fold (slack_call SLACK_WEBHOOK text). by rewrite H.
Qed.

(** X11.  An item the loop cannot take an id from stops the pass before
    anything is recorded or fetched: an object without ["id"] raises the key
    error for 'id', an item that is no object raises the type error, and so
    does an id that is a list or an object, which a set cannot hold.  The
    state is as it was. *)
Theorem item_without_usable_id (itm : json) (st : state World) :
  (∀ f, itm = JObj f → dict_get "id" f = None →
        loop_item rr PAT SLACK_WEBHOOK itm st = (Raise (KeyError "id"), st))
  ∧ (is_object itm = false →
     loop_item rr PAT SLACK_WEBHOOK itm st = (Raise TypeError, st))
  ∧ (∀ wid, py_getitem itm "id" = Ok wid → py_hashable wid = None →
            loop_item rr PAT SLACK_WEBHOOK itm st = (Raise TypeError, st)).
Proof.
  split; [|split].
  - intros f -> Hid. unfold loop_item, bind, lift. simpl. by rewrite Hid.
  - intros Hobj. unfold loop_item, bind, lift. by destruct itm.
  - intros wid Hwid Hk. unfold loop_item, bind, lift, seen_lacks.
    by rewrite Hwid, Hk.
Qed.

End Endpoints.

Lemma area_predicate_by_endpoint_witness :
  let denied := mkResponse 403 "Forbidden" None in
  let st : state script := initial [Responded denied] in
  get_team_area_predicate scripted "pat" "AnotherProject" "WASP" st
  = (Raise (HTTPError denied),
     after_call st (team_settings_call "pat" "AnotherProject" "WASP") [])
  ∧ get_team_area_predicate scripted "pat" "AnotherProject" "WASP"
      (initial [answer 200 "" None])
    = (Ok "[System.TeamProject] = 'OmniStack'",
       after_call (initial [answer 200 "" None])
                  (team_settings_call "pat" "AnotherProject" "WASP") []).
Proof.
  intros denied st. split.
  - pose proof (area_predicate_by_endpoint scripted "pat" "AnotherProject" "WASP"
                  st denied [] eq_refl) as [_ H].
    apply H. reflexivity.
  - pose proof (area_predicate_by_endpoint scripted "pat" "AnotherProject" "WASP"
                  (initial [answer 200 "" None]) (mkResponse 200 "" None) []
                  eq_refl) as [H _].
    apply H; reflexivity.
Defined.

Lemma webhook_status_is_ignored_witness :
  let gone := mkResponse 404 "no_service" None in
  let st : state script := initial [Responded gone] in
  post_to_slack scripted demo_hook demo_text st
  = (Ok tt, after_call st (slack_call demo_hook demo_text) []).
Proof.
  intros gone st.
  apply (webhook_status_is_ignored scripted demo_hook demo_text st gone []).
  reflexivity.
Defined.

Lemma item_without_usable_id_witness :
  loop_item scripted "pat" demo_hook (JObj [("url", JStr "x")]) demo_state
  = (Raise (KeyError "id"), demo_state)
  ∧ loop_item scripted "pat" demo_hook (JObj [("id", JList [JNum 1])]) demo_state
    = (Raise TypeError, demo_state).
Proof.
  destruct (item_without_usable_id scripted "pat" demo_hook
              (JObj [("url", JStr "x")]) demo_state) as (Hkey & _ & _).
  destruct (item_without_usable_id scripted "pat" demo_hook
              (JObj [("id", JList [JNum 1])]) demo_state) as (_ & _ & Hhash).
  split.
  - apply (Hkey [("url", JStr "x")]); reflexivity.
  - apply (Hhash (JList [JNum 1])); reflexivity.
Defined.

(** ** One item, step by step *)

Section ItemTrace.

Context {World : Type}.
Variable rr : http_call → World → http_outcome * World.
Variables PAT SLACK_WEBHOOK : string.

Lemma get_work_item_exact (wid : json) (st st' : state World) (r : result json) :
  get_work_item rr PAT AZURE_PROJ wid st = (r, st') →
  trace st' = trace st ++ [EvFetch wid; EvHttp (fetch_call PAT wid)]
  ∧ seen_ids st' = seen_ids st.
Proof.
  unfold get_work_item, azure_get, bind at 1, emit at 1. intros H.
  pose proof (request_one_call rr PAT "GET"
                (AZURE_PROJ +:+ "/_apis/wit/workitems/" +:+ py_str wid)
                (api_version "6.0") None
                (mkState (world st) (seen_ids st) (trace st ++ [EvFetch wid])))
    as (T & _ & S).
  rewrite H in T, S. simpl in T, S. split; [|done].
  rewrite T. by rewrite <- app_assoc.
Qed.

Lemma post_to_slack_exact (text : string) (st st' : state World) (r : result unit) :
  post_to_slack rr SLACK_WEBHOOK text st = (r, st') →
  r = Ok tt
  ∧ seen_ids st' = seen_ids st
  ∧ (trace st' = trace st ++ [EvHttp (slack_call SLACK_WEBHOOK text)]
     ∨ ∃ e, trace st' = trace st ++ [EvHttp (slack_call SLACK_WEBHOOK text);
                                    EvPrint (LogWarn e)]).
Proof.
  unfold post_to_slack, try_except, bind, http, print, emit, ret.
  fold (slack_call SLACK_WEBHOOK text).
  destruct (rr _ (world st)) as [[resp|e] w]; intros [= <- <-]; simpl.
  - split; [done|]. split; [done|]. by left.
  - split; [done|]. split; [done|]. right. exists e. by rewrite <- app_assoc.
Qed.

(** The events of one turn of the item loop, in full. *)
Lemma loop_item_events (itm : json) (st st' : state World) (r : result unit) :
  loop_item rr PAT SLACK_WEBHOOK itm st = (r, st') →
  st' = st
  ∨ ∃ wid k tail,
      py_getitem itm "id" = Ok wid
      ∧ py_hashable wid = Some k
      ∧ (k ∉ seen_ids st)
      ∧ seen_ids st' = {[k]} ∪ seen_ids st
      ∧ trace st' = trace st ++ [EvSeenAdd k; EvFetch wid;
                                 EvHttp (fetch_call PAT wid)] ++ tail
      ∧ ((tail = [] ∧ ∃ e, r = Raise e)
         ∨ ∃ text, r = Ok tt
                   ∧ (tail = [EvNotify wid text;
                              EvHttp (slack_call SLACK_WEBHOOK text)]
                      ∨ ∃ e, tail = [EvNotify wid text;
                                     EvHttp (slack_call SLACK_WEBHOOK text);
                                     EvPrint (LogWarn e)])).
Proof.
  unfold loop_item. intros H.
  apply bind_inv in H as [(wid & st1 & H1 & H) | (e & H1 & ->)];
    apply lift_inv in H1 as [Hwid ->]; [|by left].
  apply bind_inv in H as [(unseen & st2 & H2 & H) | (e & H2 & ->)];
    unfold seen_lacks in H2;
    destruct (py_hashable wid) as [k|] eqn:Hk; try discriminate;
    injection H2 as <- <-; [|by left].
  case_bool_decide as Hnew; [|injection H as <- <-; by left].
  apply bind_inv in H as [(? & st3 & H3 & H) | (e & H3 & ->)];
    unfold seen_add in H3; rewrite Hk in H3; [|discriminate].
  injection H3 as _ <-. cbv zeta in H.
  right. exists wid, k.
  assert (∀ st4 e, trace st4 = trace st ++ [EvSeenAdd k] ++
                                [EvFetch wid; EvHttp (fetch_call PAT wid)] →
                   seen_ids st4 = {[k]} ∪ seen_ids st →
                   (Raise e, st4) = (r, st') →
                   ∃ tail, py_getitem itm "id" = Ok wid
      ∧ py_hashable wid = Some k
      ∧ (k ∉ seen_ids st)
      ∧ seen_ids st' = {[k]} ∪ seen_ids st
      ∧ trace st' = trace st ++ [EvSeenAdd k; EvFetch wid;
                                 EvHttp (fetch_call PAT wid)] ++ tail
      ∧ ((tail = [] ∧ ∃ e, r = Raise e)
         ∨ ∃ text, r = Ok tt
                   ∧ (tail = [EvNotify wid text;
                              EvHttp (slack_call SLACK_WEBHOOK text)]
                      ∨ ∃ e, tail = [EvNotify wid text;
                                     EvHttp (slack_call SLACK_WEBHOOK text);
                                     EvPrint (LogWarn e)]))) as Hraise.
  { intros st4 e T S [= <- <-]. exists [].
    split; [by symmetry|]. split; [done|]. split; [done|]. split; [done|].
    split; [by rewrite T, app_nil_r|]. left. split; [done|]. by exists e. }
  apply bind_inv in H as [(details & st4 & H4 & H) | (e & H4 & ->)];
    destruct (get_work_item_exact _ _ _ _ H4) as [T4 S4]; simpl in T4, S4;
    [|refine (Hraise _ _ _ _ eq_refl); [by rewrite T4, <- app_assoc | done]].
  do 5 (apply bind_inv in H as [(? & ? & Hl & H) | (e & Hl & ->)];
        apply lift_inv in Hl as [_ ?]; subst;
        [|refine (Hraise _ _ _ _ eq_refl); [by rewrite T4, <- app_assoc | done]]).
  unfold bind at 1, emit at 1 in H.
  destruct (post_to_slack_exact _ _ _ _ H) as (-> & S5 & T5). simpl in S5, T5.
  destruct T5 as [T5 | [e T5]].
  - exists [EvNotify wid (ticket_message x4 wid x1);
            EvHttp (slack_call SLACK_WEBHOOK (ticket_message x4 wid x1))].
    split; [by symmetry|]. split; [done|]. split; [done|].
    split; [by rewrite S5, S4|].
    split; [by rewrite T5, T4, <- !app_assoc|].
    right. eexists. split; [done|]. by left.
  - exists [EvNotify wid (ticket_message x4 wid x1);
            EvHttp (slack_call SLACK_WEBHOOK (ticket_message x4 wid x1));
            EvPrint (LogWarn e)].
    split; [by symmetry|]. split; [done|]. split; [done|].
    split; [by rewrite S5, S4|].
    split; [by rewrite T5, T4, <- !app_assoc|].
    right. eexists. split; [done|]. right. by exists e.
Qed.


(** X13.  A turn of the item loop that raised has notified nothing.  When
    it raised after taking an unseen id, the fetch having failed or the
    details lacking a field, the key stays in [seen_ids], and every later
    turn passes the item over: its notification is lost. *)
Theorem failed_item_is_never_notified (itm : json) (st st' : state World)
    (e : exn) :
  loop_item rr PAT SLACK_WEBHOOK itm st = (Raise e, st') →
  (∃ evs, trace st' = trace st ++ evs ∧ ∀ wid text, EvNotify wid text ∉ evs)
  ∧ (∀ wid k, py_getitem itm "id" = Ok wid → py_hashable wid = Some k →
              k ∈ seen_ids st'
              ∧ ∀ later : state World,
                  seen_ids st' ⊆ seen_ids later →
                  loop_item rr PAT SLACK_WEBHOOK itm later = (Ok tt, later)).
Proof.
  intros H.
  destruct (loop_item_events _ _ _ _ H)
    as [-> | (wid & k & tail & Hwid & Hk & Hnew & S & T & Htail)].
  - split.
    + exists []. rewrite app_nil_r. split; [done|].
      intros wid text Hin. by apply elem_of_nil in Hin.
    + intros wid k Hwid Hk.
      assert (k ∈ seen_ids st) as Hin.
      { destruct (decide (k ∈ seen_ids st)) as [|Hout]; [done|].
        unfold loop_item, bind at 1 2 3, lift at 1, seen_lacks, seen_add in H.
        rewrite Hwid, Hk in H. rewrite bool_decide_eq_true_2 in H by done.
        cbv zeta in H.
        match type of H with
        | ?m ?s = _ => destruct (loop_item_tail rr PAT SLACK_WEBHOOK wid s
                                   (Raise e) st H) as (_ & evs1 & tl & T & _)
        end.
        simpl in T. rewrite <- (app_nil_r (trace st)) in T at 1.
        rewrite <- app_assoc in T. apply app_inv_head in T. done. }
      split; [done|]. intros later Hsub.
      apply (loop_item_seen rr PAT SLACK_WEBHOOK _ _ _ _ Hwid Hk). by apply Hsub.
  - destruct Htail as [[-> _] | (text & [=] & _)].
    split.
    + eexists. split; [exact T|]. intros wid' text Hin.
      rewrite app_nil_r in Hin.
      repeat (apply elem_of_cons in Hin as [[=] | Hin]).
      by apply elem_of_nil in Hin.
    + intros wid' k' Hwid' Hk'. rewrite Hwid in Hwid'. injection Hwid' as <-.
      rewrite Hk in Hk'. injection Hk' as <-.
      split; [rewrite S; set_solver|]. intros later Hsub.
      apply (loop_item_seen rr PAT SLACK_WEBHOOK _ _ _ _ Hwid Hk).
      apply Hsub. rewrite S. set_solver.
Qed.

End ItemTrace.


Lemma failed_item_is_never_notified_witness :
  let st : state script := mkState [Responded demo_refused] ∅ [] in
  let run := loop_item scripted "pat" demo_hook (JObj [("id", JNum 102)]) st in
  KInt 102 ∈ seen_ids run.2
  ∧ ∀ later : state script,
      seen_ids run.2 ⊆ seen_ids later →
      loop_item scripted "pat" demo_hook (JObj [("id", JNum 102)]) later
      = (Ok tt, later).
Proof.
  intros st run.
  apply (proj2 (failed_item_is_never_notified scripted "pat" demo_hook
                  (JObj [("id", JNum 102)]) st run.2 (HTTPError demo_refused)
                  eq_refl) (JNum 102) (KInt 102)); reflexivity.
Defined.

(** ** One item and one turn, when all goes well or nothing is listed *)

Section Turn.

Context {World : Type}.
Variable rr : http_call → World → http_outcome * World.
Variables PAT SLACK_WEBHOOK : string.

(** X14.  The whole of one notification.  For an item whose id is not seen,
    when the fetch is answered with details that have ["fields"] and
    ["_links"]["html"]["href"], the turn returns having recorded the key,
    fetched once, and posted once the message made of the link, the id and
    the title, the title being [None] when the fields have no
    ["System.Title"]; a post that raises adds the warning and changes
    nothing else. *)
Theorem unseen_item_is_notified (itm wid : json) (k : pykey) (st : state World)
    (resp : response) (w1 w2 : World) (details fields title links html url : json)
    (out : http_outcome) :
  py_getitem itm "id" = Ok wid →
  py_hashable wid = Some k →
  k ∉ seen_ids st →
  rr (fetch_call PAT wid) (world st) = (Responded resp, w1) →
  request_result resp = Ok details →
  py_getitem details "fields" = Ok fields →
  py_get fields "System.Title" JNull = Ok title →
  py_getitem details "_links" = Ok links →
  py_getitem links "html" = Ok html →
  py_getitem html "href" = Ok url →
  rr (slack_call SLACK_WEBHOOK (ticket_message url wid title)) w1 = (out, w2) →
  loop_item rr PAT SLACK_WEBHOOK itm st
  = (Ok tt,
     mkState w2 ({[k]} ∪ seen_ids st)
       (trace st ++
        [EvSeenAdd k; EvFetch wid; EvHttp (fetch_call PAT wid);
         EvNotify wid (ticket_message url wid title);
         EvHttp (slack_call SLACK_WEBHOOK (ticket_message url wid title))] ++
        match out with
        | Failed e => [EvPrint (LogWarn e)]
        | Responded _ => []
        end)).
Proof.
  intros Hwid Hk Hnew Hfetch Hdetails Hfields Htitle Hlinks Hhtml Hurl Hpost.
  unfold loop_item, bind at 1 2 3, lift at 1, seen_lacks, seen_add.
  rewrite Hwid, Hk. rewrite bool_decide_eq_true_2 by done. cbv zeta.
  unfold bind at 1, get_work_item, azure_get, bind at 1, emit at 1.
  unfold fetch_call in Hfetch. cbn [world seen_ids trace].
  rewrite (request_answered rr PAT _ _ _ _
             (mkState (world st) ({[k]} ∪ seen_ids st)
                      ((trace st ++ [EvSeenAdd k]) ++ [EvFetch wid]))
             resp w1 Hfetch), Hdetails.
  unfold bind at 1, lift at 1. rewrite Hfields.
  unfold bind at 1, lift at 1. rewrite Htitle.
  unfold bind at 1, lift at 1. rewrite Hlinks.
  unfold bind at 1, lift at 1. rewrite Hhtml.
  unfold bind at 1, lift at 1. rewrite Hurl.
  unfold bind at 1, emit at 1, post_to_slack, try_except, bind, http, print,
    emit, ret.
  fold (slack_call SLACK_WEBHOOK (ticket_message url wid title)).
  unfold after_call. simpl. rewrite Hpost.
  destruct out as [r|e]; simpl; f_equal; f_equal;
    by rewrite <- !app_assoc.
Qed.

(** X15.  A turn with nothing to go through.  When what the query answer
    lists is empty, an empty body, an object without ["workItems"], an empty
    list, the turn is the query, its one call, and the sleep, and nothing is
    logged.  When the answer cannot be gone through, an error status, a body
    that is not JSON, ["workItems"] being null, the turn is the same with the
    error line before the sleep.  [seen_ids] is as before in both. *)
Theorem turn_without_items (area : string) (st : state World)
    (resp : response) (w : World) :
  rr (wiql_call PAT area) (world st) = (Responded resp, w) →
  let listing := rbind (rbind (request_result resp)
                              (λ res, py_get res "workItems" (JList [])))
                       py_iter in
  (listing = Ok [] →
   poll_cycle rr PAT SLACK_WEBHOOK area st
   = (Ok tt, mkState w (seen_ids st)
                     (trace st ++ [EvQuery; EvHttp (wiql_call PAT area);
                                   EvSleep POLL_INTERVAL])))
  ∧ (∀ e, listing = Raise e →
          poll_cycle rr PAT SLACK_WEBHOOK area st
          = (Ok tt, mkState w (seen_ids st)
                            (trace st ++ [EvQuery; EvHttp (wiql_call PAT area);
                                          EvPrint (LogError e);
                                          EvSleep POLL_INTERVAL]))).
Proof.
  intros H listing.
  assert (poll_try rr PAT SLACK_WEBHOOK area st
          = (rbind listing (λ its, Ok tt),
             mkState w (seen_ids st)
                     (trace st ++ [EvQuery; EvHttp (wiql_call PAT area)]))
          ∨ ∃ x xs, listing = Ok (x :: xs)) as Htry.
  { unfold poll_try, query_items_in_board_column, azure_post.
    unfold bind at 1 2 3, emit at 1. cbv zeta.
    unfold wiql_call in H.
    rewrite (request_answered rr PAT _ _ _ _
               (mkState (world st) (seen_ids st) (trace st ++ [EvQuery]))
               resp w H).
    unfold listing. destruct (request_result resp) as [res|e]; simpl.
    - unfold lift at 1. destruct (py_get res "workItems" (JList [])) as [items|e];
        simpl.
      + unfold bind, lift. destruct (py_iter items) as [[|x xs]|e]; simpl.
        * left. unfold after_call. simpl. by rewrite <- app_assoc.
        * right. by exists x, xs.
        * left. unfold after_call. simpl. by rewrite <- app_assoc.
      + left. unfold after_call. simpl. by rewrite <- app_assoc.
    - left. unfold after_call. simpl. by rewrite <- app_assoc. }
  split.
  - intros Hl. rewrite poll_cycle_unfold.
    destruct Htry as [-> | (x & xs & Hx)]; [|by rewrite Hx in Hl].
    rewrite Hl. simpl. by rewrite <- app_assoc.
  - intros e Hl. rewrite poll_cycle_unfold.
    destruct Htry as [-> | (x & xs & Hx)]; [|by rewrite Hx in Hl].
    rewrite Hl. simpl. by rewrite <- app_assoc.
Qed.

End Turn.

Lemma unseen_item_is_notified_witness :
  let details := JObj [("fields", JObj []);
                       ("_links", JObj [("html", JObj [("href", JStr demo_url)])])] in
  let st : state script := mkState [answer_json details; Failed demo_timeout] ∅ [] in
  let text := ticket_message (JStr demo_url) (JNum 102) JNull in
  loop_item scripted "pat" demo_hook (JObj [("id", JNum 102)]) st
  = (Ok tt,
     mkState [] ({[KInt 102]} ∪ ∅)
       ([] ++ [EvSeenAdd (KInt 102); EvFetch (JNum 102);
               EvHttp (fetch_call "pat" (JNum 102));
               EvNotify (JNum 102) text; EvHttp (slack_call demo_hook text)] ++
        [EvPrint (LogWarn demo_timeout)]))
  ∧ text = ":excitedstar: *[WASP · Stories] Ticket ready for testing:* "
           +:+ "<" +:+ demo_url +:+ "|#102 – None>".
Proof.
  intros details st text. split; [|reflexivity].
  apply (unseen_item_is_notified scripted "pat" demo_hook
           (JObj [("id", JNum 102)]) (JNum 102) (KInt 102) st
           (mkResponse 200 (py_repr details) (Some details))
           [Failed demo_timeout] [] details (JObj []) JNull
           (JObj [("html", JObj [("href", JStr demo_url)])])
           (JObj [("href", JStr demo_url)]) (JStr demo_url)
           (Failed demo_timeout));
    try reflexivity.
  simpl. set_solver.
Defined.

Lemma turn_without_items_witness :
  let st : state script := mkState [answer 200 "" None] {[KInt 101]} [] in
  poll_cycle scripted "pat" demo_hook demo_area st
  = (Ok tt, mkState [] (seen_ids st)
                    (trace st ++ [EvQuery; EvHttp (wiql_call "pat" demo_area);
                                  EvSleep POLL_INTERVAL])).
Proof.
  intros st.
  apply (proj1 (turn_without_items scripted "pat" demo_hook demo_area st
                  (mkResponse 200 "" None) [] eq_refl)).
  reflexivity.
Defined.

(** ** The run as a whole *)

Lemma http_count_app (evs1 evs2 : list event) :
  http_count (evs1 ++ evs2) = (http_count evs1 + http_count evs2)%nat.
Proof.
  induction evs1 as [|ev evs1 IH]; simpl; [done|].
  destruct ev; simpl; by rewrite ?IH.
Qed.

Lemma added_list_app (evs1 evs2 : list event) :
  added_list (evs1 ++ evs2) = added_list evs1 ++ added_list evs2.
Proof.
  induction evs1 as [|ev evs1 IH]; simpl; [done|].
  destruct ev; simpl; by rewrite ?IH.
Qed.

Lemma within_budget_app (q1 q2 : nat) (evs1 evs2 : list event) :
  within_budget q1 evs1 → within_budget q2 evs2 →
  within_budget (q1 + q2) (evs1 ++ evs2).
Proof.
  unfold within_budget. rewrite http_count_app, added_list_app, length_app. lia.
Qed.

(** The adds the monitor lets through are of distinct keys, none of them
    seen at the start, and they make up what [seen_ids] gains. *)
Lemma monitor_run_added (evs : list event) : ∀ (ms ms' : monitor),
  monitor_run ms evs = Some ms' →
  NoDup (added_list evs)
  ∧ (∀ k, k ∈ added_list evs → k ∉ ms.1)
  ∧ ms'.1 = list_to_set (added_list evs) ∪ ms.1.
Proof.
  induction evs as [|ev evs IH]; intros ms ms'; simpl.
  - intros [= <-]. split; [constructor|]. split; [|set_solver].
    intros k Hk. by apply elem_of_nil in Hk.
  - destruct (monitor_step ms ev) as [ms1|] eqn:Hstep; [|done].
    intros Hrun. destruct (IH _ _ Hrun) as (Hnd & Hnew & Hseen).
    destruct ev; simpl in Hstep;
      try (injection Hstep as <-; by repeat split).
    + case_bool_decide as Hk; [done|]. injection Hstep as <-. simpl in *.
      split; [|split].
      * constructor; [|done]. intros Hin. apply (Hnew _ Hin). set_solver.
      * intros k' Hk'. apply elem_of_cons in Hk' as [-> | Hk']; [done|].
        specialize (Hnew _ Hk'). set_solver.
      * rewrite Hseen. set_solver.
    + destruct (py_hashable wid), ms.2; try done.
      case_bool_decide; [|done]. injection Hstep as <-. by repeat split.
Qed.

Section Run.

Context {World : Type}.
Variable rr : http_call → World → http_outcome * World.
Variables PAT SLACK_WEBHOOK : string.

(** X16.  [main] fails at startup or not at all.  Its outcome after any
    number of turns is its outcome after none; when the startup raises,
    nothing follows it; when it does not, the [n] turns follow it, each with
    its query and its sleep; and the startup itself makes no query, records
    no id and notifies nothing. *)
Theorem main_fails_only_at_startup (n : nat) (st : state World) :
  (main rr PAT SLACK_WEBHOOK n st).1 = (main rr PAT SLACK_WEBHOOK 0 st).1
  ∧ (∀ e, (main rr PAT SLACK_WEBHOOK 0 st).1 = Raise e →
          main rr PAT SLACK_WEBHOOK n st = main rr PAT SLACK_WEBHOOK 0 st)
  ∧ ((main rr PAT SLACK_WEBHOOK 0 st).1 = Ok tt →
     ∃ blocks, length blocks = n
               ∧ Forall (Forall not_query) blocks
               ∧ trace (main rr PAT SLACK_WEBHOOK n st).2
                 = trace (main rr PAT SLACK_WEBHOOK 0 st).2 ++ turns blocks)
  ∧ (∃ evs, trace (main rr PAT SLACK_WEBHOOK 0 st).2 = trace st ++ evs
            ∧ Forall plain evs).
Proof.
  assert (tracked plain (main rr PAT SLACK_WEBHOOK 0)) as Hplain.
  { unfold main.
    apply tracked_bind; [by apply get_board_id_by_name_tracked|].
    intros [board_id resolved_board_name].
    apply tracked_bind; [by apply get_column_id_by_name_tracked|].
    intros [column_id resolved_col_name].
    do 2 (apply tracked_bind; [by apply tracked_emit | intros _]).
    apply tracked_bind; [by apply get_team_area_predicate_tracked|].
    intros area.
    apply tracked_bind; [by apply tracked_emit | intros _].
    apply tracked_ret. }
  assert (∃ evs, trace (main rr PAT SLACK_WEBHOOK 0 st).2 = trace st ++ evs
                 ∧ Forall plain evs) as Hstart.
  { destruct (main rr PAT SLACK_WEBHOOK 0 st) as [r st'] eqn:H.
    destruct (Hplain _ _ _ H) as (evs & T & F & _). by exists evs. }
  unfold main, bind, print, emit in *.
  destruct (get_board_id_by_name rr PAT AZURE_PROJ TEAM_NAME BOARD_NAME st)
    as [[[board_id bname]|e] s1]; [|split; [done|]; split; [done|]; split; [by intros [=] | exact Hstart]].
  destruct (get_column_id_by_name rr PAT AZURE_PROJ TEAM_NAME board_id
              COLUMN_NAME s1)
    as [[[column_id cname]|e] s2]; [|split; [done|]; split; [done|]; split; [by intros [=] | exact Hstart]].
  cbn [world seen_ids trace] in *.
  destruct (get_team_area_predicate rr PAT AZURE_PROJ TEAM_NAME _)
    as [[area|e] s3]; [|split; [done|]; split; [done|]; split; [by intros [=] | exact Hstart]].
  cbn [world seen_ids trace poll_loop ret fst snd] in *.
  split; [apply poll_loop_returns|]. split; [done|]. split; [|exact Hstart].
  intros _. apply poll_loop_shape.
Qed.

(** The adds of [n] turns against what [seen_ids] gains. *)
Lemma poll_loop_seen_growth (area : string) (n : nat) (st : state World) :
  let st' := (poll_loop rr PAT SLACK_WEBHOOK area n st).2 in
  ∃ evs, trace st' = trace st ++ evs
    ∧ NoDup (added_list evs)
    ∧ (∀ k, k ∈ added_list evs → k ∉ seen_ids st)
    ∧ seen_ids st' = list_to_set (added_list evs) ∪ seen_ids st
    ∧ size (seen_ids st') = (size (seen_ids st) + length (added_list evs))%nat.
Proof.
  intros st'. subst st'.
  destruct (poll_loop rr PAT SLACK_WEBHOOK area n st) as [r st'] eqn:H.
  destruct (poll_loop_accepted rr PAT SLACK_WEBHOOK area n _ _ _ H)
    as (evs & T & R).
  destruct (R None) as [p' Hrun].
  destruct (monitor_run_added _ _ _ Hrun) as (Hnd & Hnew & Hseen).
  simpl in *. exists evs. split; [done|]. split; [done|]. split; [done|].
  split; [done|].
  rewrite Hseen, size_union, size_list_to_set by (done || set_solver). lia.
Qed.

(** X17.  How [seen_ids] grows over any number of turns: the keys added
    are distinct, none was seen before, they are exactly what the set gains,
    and nothing leaves it; so the set grows by one for each add. *)
Theorem seen_ids_growth (area : string) (n : nat) (st : state World) :
  let st' := (poll_loop rr PAT SLACK_WEBHOOK area n st).2 in
  ∃ evs, trace st' = trace st ++ evs
    ∧ NoDup (added_list evs)
    ∧ (∀ k, k ∈ added_list evs → k ∉ seen_ids st)
    ∧ seen_ids st' = list_to_set (added_list evs) ∪ seen_ids st
    ∧ size (seen_ids st') = (size (seen_ids st) + length (added_list evs))%nat.
Proof. exact (poll_loop_seen_growth area n st). Qed.

Lemma for_each_budget (xs : list json) : ∀ (st st' : state World) (r : result unit),
  for_each (loop_item rr PAT SLACK_WEBHOOK) xs st = (r, st') →
  ∃ evs, trace st' = trace st ++ evs ∧ within_budget 0 evs.
Proof.
  induction xs as [|x xs IH]; intros st st' r; simpl.
  - intros [= <- <-]. exists []. rewrite app_nil_r. split; [done|].
    unfold within_budget. simpl. lia.
  - intros H.
    assert (∀ s s' q, loop_item rr PAT SLACK_WEBHOOK x s = (q, s') →
                      ∃ evs, trace s' = trace s ++ evs ∧ within_budget 0 evs)
      as Hitem.
    { intros s s' q Hq.
      destruct (loop_item_events rr PAT SLACK_WEBHOOK _ _ _ _ Hq)
        as [-> | (wid & k & tail & _ & _ & _ & _ & T & Htail)].
      - exists []. rewrite app_nil_r. split; [done|].
        unfold within_budget. simpl. lia.
      - eexists. split; [exact T|]. unfold within_budget.
        destruct Htail as [[-> _] | (text & _ & [-> | [e ->]])]; simpl; lia. }
    apply bind_inv in H as [(? & st1 & H1 & H2) | (e & H1 & ->)].
    + destruct (Hitem _ _ _ H1) as (evs1 & T1 & B1).
      destruct (IH _ _ _ H2) as (evs2 & T2 & B2).
      exists (evs1 ++ evs2). split; [by rewrite T2, T1, app_assoc|].
      exact (within_budget_app 0 0 _ _ B1 B2).
    + exact (Hitem _ _ _ H1).
Qed.

Lemma poll_cycle_budget (area : string) (st : state World) :
  ∃ evs, trace (poll_cycle rr PAT SLACK_WEBHOOK area st).2 = trace st ++ evs
         ∧ within_budget 1 evs.
Proof.
  assert (∀ r st', poll_try rr PAT SLACK_WEBHOOK area st = (r, st') →
                   ∃ evs, trace st' = trace st ++ evs ∧ within_budget 1 evs)
    as Htry.
  { intros r st'. unfold poll_try, query_items_in_board_column, azure_post.
    unfold bind at 1 2 3, emit at 1. cbv zeta.
    pose proof (request_one_call rr PAT "POST"
                  (AZURE_PROJ +:+ "/_apis/wit/wiql") (api_version "6.0")
                  (Some (JObj [("query", JStr (wiql_query AZURE_PROJ COLUMN_NAME
                                                          area))]))
                  (mkState (world st) (seen_ids st) (trace st ++ [EvQuery])))
      as (T & _ & _).
    cbv zeta in T. cbn [trace] in T.
    destruct (_request rr PAT "POST" _ _ _ _) as [[res|e] s1]; simpl in T.
    - unfold lift at 1.
      destruct (py_get res "workItems" (JList [])) as [items|e].
      + intros H. apply bind_inv in H as [(its & s2 & Hl & H) | (e & Hl & ->)];
          apply lift_inv in Hl as [_ ?]; subst.
        * destruct (for_each_budget _ _ _ _ H) as (evs & T2 & B2).
          eexists. split; [rewrite T2, T, <- !app_assoc; reflexivity|].
          apply (within_budget_app 1 0 [EvQuery; EvHttp _] evs); [|done].
          unfold within_budget. simpl. lia.
        * eexists. split; [rewrite T, <- app_assoc; reflexivity|].
          unfold within_budget. simpl. lia.
      + intros [= <- <-]. eexists.
        split; [rewrite T, <- app_assoc; reflexivity|].
        unfold within_budget. simpl. lia.
    - intros [= <- <-]. eexists.
      split; [rewrite T, <- app_assoc; reflexivity|].
      unfold within_budget. simpl. lia. }
  rewrite poll_cycle_unfold.
  destruct (poll_try rr PAT SLACK_WEBHOOK area st) as [[[]|e] s1] eqn:H;
    destruct (Htry _ _ eq_refl) as (evs & T & B); simpl; rewrite T, <- app_assoc;
    eexists; (split; [reflexivity|]).
  - apply (within_budget_app 1 0 evs [EvSleep POLL_INTERVAL]) in B; [done|].
    unfold within_budget. simpl. lia.
  - apply (within_budget_app 1 0 evs [EvPrint (LogError e); EvSleep POLL_INTERVAL])
      in B; [done|].
    unfold within_budget. simpl. lia.
Qed.

(** X18.  The network calls of [n] turns: the [n] calls of the queries, and
    at most two more, a fetch and a post, for each id recorded, which is for
    each key [seen_ids] gained.  Nothing is called twice for one id, and a
    turn that finds nothing new makes the one call of its query. *)
Theorem calls_within_budget (area : string) (n : nat) (st : state World) :
  let st' := (poll_loop rr PAT SLACK_WEBHOOK area n st).2 in
  ∃ evs, trace st' = trace st ++ evs
    ∧ (n ≤ http_count evs)%nat
    ∧ (http_count evs ≤ n + 2 * (size (seen_ids st') - size (seen_ids st)))%nat.
Proof.
  intros st'.
  assert (∃ evs, trace st' = trace st ++ evs ∧ within_budget n evs)
    as (evs & T & Hlow & Hhigh).
  { subst st'. revert st. induction n as [|n IH]; intros st; simpl.
    - exists []. rewrite app_nil_r. split; [done|].
      unfold within_budget. simpl. lia.
    - unfold bind. pose proof (poll_cycle_returns rr PAT SLACK_WEBHOOK area st) as Hc.
      destruct (poll_cycle_budget area st) as (evs1 & T1 & B1).
      destruct (poll_cycle rr PAT SLACK_WEBHOOK area st) as [r s1].
      simpl in Hc, T1. subst r.
      destruct (IH s1) as (evs2 & T2 & B2).
      exists (evs1 ++ evs2). split; [by rewrite T2, T1, app_assoc|].
      exact (within_budget_app 1 n _ _ B1 B2). }
  destruct (poll_loop_seen_growth area n st) as (evs' & T' & _ & _ & _ & Hsize).
  fold st' in T', Hsize. rewrite T in T'. apply app_inv_head in T' as <-.
  exists evs. split; [done|]. split; [done|]. lia.
Qed.

End Run.

Lemma request_ignores_leading_slashes_witness :
  _request scripted "pat" "GET" ("//" +:+ "OmniStack/_apis/wit/wiql") None None
           (initial [answer 200 "" None])
  = _request scripted "pat" "GET" "OmniStack/_apis/wit/wiql" None None
             (initial [answer 200 "" None]).
Proof.
  exact (proj1 (request_ignores_leading_slashes scripted "pat" "GET"
                  "OmniStack/_apis/wit/wiql" None None)
               2%nat (initial [answer 200 "" None])).
Defined.

Lemma request_sends_one_call_witness :
  let st : state script := initial [Responded demo_refused; answer 200 "" None] in
  let c := request_call "pat" "GET" "OmniStack/_apis/wit/workitems/7" None None in
  let after := (_request scripted "pat" "GET" "OmniStack/_apis/wit/workitems/7"
                         None None st).2 in
  trace after = trace st ++ [EvHttp c]
  ∧ world after = (scripted c (world st)).2
  ∧ seen_ids after = seen_ids st.
Proof.
  exact (request_sends_one_call scripted "pat" "GET"
           "OmniStack/_apis/wit/workitems/7" None None
           (initial [Responded demo_refused; answer 200 "" None])).
Defined.

Lemma main_fails_only_at_startup_witness :
  let st : state script := initial [answer 200 "" None; items_answer [101]] in
  main scripted "pat" demo_hook 5 st = main scripted "pat" demo_hook 0 st.
Proof.
  intros st.
  apply (proj1 (proj2 (main_fails_only_at_startup scripted "pat" demo_hook 5 st))
           (RuntimeError "Board 'Stories' not found for team 'WASP'. Available: []")).
  reflexivity.
Defined.

Lemma seen_ids_growth_witness :
  let st' := (poll_loop scripted "pat" demo_hook demo_area 2 demo_state_refused).2 in
  size (seen_ids st')
  = (size (seen_ids demo_state_refused) + length (added_list (trace st')))%nat.
Proof.
  intros st'.
  destruct (seen_ids_growth scripted "pat" demo_hook demo_area 2 demo_state_refused)
    as (evs & T & _ & _ & _ & Hsize).
  fold st' in T, Hsize. simpl in T. rewrite T. exact Hsize.
Defined.

Lemma calls_within_budget_witness :
  let st' := (poll_loop scripted "pat" demo_hook demo_area 2 demo_state_refused).2 in
  (2 ≤ http_count (trace st'))%nat
  ∧ (http_count (trace st')
     ≤ 2 + 2 * (size (seen_ids st') - size (seen_ids demo_state_refused)))%nat.
Proof.
  intros st'.
  destruct (calls_within_budget scripted "pat" demo_hook demo_area 2
              demo_state_refused) as (evs & T & Hlow & Hhigh).
  fold st' in T, Hhigh. simpl in T. rewrite T. exact (conj Hlow Hhigh).
Defined.

(** ** The scope predicate builder on every answer of its shape *)




